(** * Codex_Metris: the province culture map (app.py)

    A shallow embedding of the pure helpers and of the two loaders of
    [app.py], together with the part of the Python runtime they rest on
    ([str.translate], [str.lower], [str.strip], [dict.get], indexing,
    truthiness), and the properties of the program checked against it. *)

From stdpp Require Import gmap list strings.
From Stdlib Require Import NArith.

Set Warnings "-register-all".

(** ** Python text

    A [str] is a sequence of Unicode code points. *)

Abbreviation pystr := (list N).

(** An ASCII literal of the source as a [str]. *)
Definition py (s : string) : pystr :=
  map Ascii.N_of_ascii (String.list_ascii_of_string s).

Section Lookup.
Context {V : Type}.

(** First binding of a code point in a table. *)
Fixpoint assoc (c : N) (t : list (N * V)) : option V :=
  match t with
  | [] => None
  | (k, v) :: t' => if (k =? c)%N then Some v else assoc c t'
  end.
End Lookup.

Local Open Scope N_scope.

(** *** The Unicode character database behind [str.lower]

    CPython 3.11 ships version 14.0.0 of the database.  [to_lower_ranges]
    lists the code points whose lowercase mapping differs from them and is
    one code point long, as arithmetic runs [(first, last, step, image of
    first)]; U+0130 is the only code point with a longer mapping. *)

Definition to_lower_ranges : list (N * N * N * N) :=
  [
    (0x41, 0x5A, 1, 0x61); (0xC0, 0xD6, 1, 0xE0); (0xD8, 0xDE, 1, 0xF8);
    (0x100, 0x12E, 2, 0x101); (0x132, 0x136, 2, 0x133); (0x139, 0x147, 2, 0x13A);
    (0x14A, 0x176, 2, 0x14B); (0x178, 0x178, 1, 0xFF); (0x179, 0x17D, 2, 0x17A);
    (0x181, 0x181, 1, 0x253); (0x182, 0x184, 2, 0x183); (0x186, 0x186, 1, 0x254);
    (0x187, 0x187, 1, 0x188); (0x189, 0x18A, 1, 0x256); (0x18B, 0x18B, 1, 0x18C);
    (0x18E, 0x18E, 1, 0x1DD); (0x18F, 0x18F, 1, 0x259); (0x190, 0x190, 1, 0x25B);
    (0x191, 0x191, 1, 0x192); (0x193, 0x193, 1, 0x260); (0x194, 0x194, 1, 0x263);
    (0x196, 0x196, 1, 0x269); (0x197, 0x197, 1, 0x268); (0x198, 0x198, 1, 0x199);
    (0x19C, 0x19C, 1, 0x26F); (0x19D, 0x19D, 1, 0x272); (0x19F, 0x19F, 1, 0x275);
    (0x1A0, 0x1A4, 2, 0x1A1); (0x1A6, 0x1A6, 1, 0x280); (0x1A7, 0x1A7, 1, 0x1A8);
    (0x1A9, 0x1A9, 1, 0x283); (0x1AC, 0x1AC, 1, 0x1AD); (0x1AE, 0x1AE, 1, 0x288);
    (0x1AF, 0x1AF, 1, 0x1B0); (0x1B1, 0x1B2, 1, 0x28A); (0x1B3, 0x1B5, 2, 0x1B4);
    (0x1B7, 0x1B7, 1, 0x292); (0x1B8, 0x1B8, 1, 0x1B9); (0x1BC, 0x1BC, 1, 0x1BD);
    (0x1C4, 0x1C4, 1, 0x1C6); (0x1C5, 0x1C5, 1, 0x1C6); (0x1C7, 0x1C7, 1, 0x1C9);
    (0x1C8, 0x1C8, 1, 0x1C9); (0x1CA, 0x1CA, 1, 0x1CC); (0x1CB, 0x1DB, 2, 0x1CC);
    (0x1DE, 0x1EE, 2, 0x1DF); (0x1F1, 0x1F1, 1, 0x1F3); (0x1F2, 0x1F4, 2, 0x1F3);
    (0x1F6, 0x1F6, 1, 0x195); (0x1F7, 0x1F7, 1, 0x1BF); (0x1F8, 0x21E, 2, 0x1F9);
    (0x220, 0x220, 1, 0x19E); (0x222, 0x232, 2, 0x223); (0x23A, 0x23A, 1, 0x2C65);
    (0x23B, 0x23B, 1, 0x23C); (0x23D, 0x23D, 1, 0x19A); (0x23E, 0x23E, 1, 0x2C66);
    (0x241, 0x241, 1, 0x242); (0x243, 0x243, 1, 0x180); (0x244, 0x244, 1, 0x289);
    (0x245, 0x245, 1, 0x28C); (0x246, 0x24E, 2, 0x247); (0x370, 0x372, 2, 0x371);
    (0x376, 0x376, 1, 0x377); (0x37F, 0x37F, 1, 0x3F3); (0x386, 0x386, 1, 0x3AC);
    (0x388, 0x38A, 1, 0x3AD); (0x38C, 0x38C, 1, 0x3CC); (0x38E, 0x38F, 1, 0x3CD);
    (0x391, 0x3A1, 1, 0x3B1); (0x3A3, 0x3AB, 1, 0x3C3); (0x3CF, 0x3CF, 1, 0x3D7);
    (0x3D8, 0x3EE, 2, 0x3D9); (0x3F4, 0x3F4, 1, 0x3B8); (0x3F7, 0x3F7, 1, 0x3F8);
    (0x3F9, 0x3F9, 1, 0x3F2); (0x3FA, 0x3FA, 1, 0x3FB); (0x3FD, 0x3FF, 1, 0x37B);
    (0x400, 0x40F, 1, 0x450); (0x410, 0x42F, 1, 0x430); (0x460, 0x480, 2, 0x461);
    (0x48A, 0x4BE, 2, 0x48B); (0x4C0, 0x4C0, 1, 0x4CF); (0x4C1, 0x4CD, 2, 0x4C2);
    (0x4D0, 0x52E, 2, 0x4D1); (0x531, 0x556, 1, 0x561); (0x10A0, 0x10C5, 1, 0x2D00);
    (0x10C7, 0x10C7, 1, 0x2D27); (0x10CD, 0x10CD, 1, 0x2D2D); (0x13A0, 0x13EF, 1, 0xAB70);
    (0x13F0, 0x13F5, 1, 0x13F8); (0x1C90, 0x1CBA, 1, 0x10D0); (0x1CBD, 0x1CBF, 1, 0x10FD);
    (0x1E00, 0x1E94, 2, 0x1E01); (0x1E9E, 0x1E9E, 1, 0xDF); (0x1EA0, 0x1EFE, 2, 0x1EA1);
    (0x1F08, 0x1F0F, 1, 0x1F00); (0x1F18, 0x1F1D, 1, 0x1F10); (0x1F28, 0x1F2F, 1, 0x1F20);
    (0x1F38, 0x1F3F, 1, 0x1F30); (0x1F48, 0x1F4D, 1, 0x1F40); (0x1F59, 0x1F5F, 2, 0x1F51);
    (0x1F68, 0x1F6F, 1, 0x1F60); (0x1F88, 0x1F8F, 1, 0x1F80); (0x1F98, 0x1F9F, 1, 0x1F90);
    (0x1FA8, 0x1FAF, 1, 0x1FA0); (0x1FB8, 0x1FB9, 1, 0x1FB0); (0x1FBA, 0x1FBB, 1, 0x1F70);
    (0x1FBC, 0x1FBC, 1, 0x1FB3); (0x1FC8, 0x1FCB, 1, 0x1F72); (0x1FCC, 0x1FCC, 1, 0x1FC3);
    (0x1FD8, 0x1FD9, 1, 0x1FD0); (0x1FDA, 0x1FDB, 1, 0x1F76); (0x1FE8, 0x1FE9, 1, 0x1FE0);
    (0x1FEA, 0x1FEB, 1, 0x1F7A); (0x1FEC, 0x1FEC, 1, 0x1FE5); (0x1FF8, 0x1FF9, 1, 0x1F78);
    (0x1FFA, 0x1FFB, 1, 0x1F7C); (0x1FFC, 0x1FFC, 1, 0x1FF3); (0x2126, 0x2126, 1, 0x3C9);
    (0x212A, 0x212A, 1, 0x6B); (0x212B, 0x212B, 1, 0xE5); (0x2132, 0x2132, 1, 0x214E);
    (0x2160, 0x216F, 1, 0x2170); (0x2183, 0x2183, 1, 0x2184); (0x24B6, 0x24CF, 1, 0x24D0);
    (0x2C00, 0x2C2F, 1, 0x2C30); (0x2C60, 0x2C60, 1, 0x2C61); (0x2C62, 0x2C62, 1, 0x26B);
    (0x2C63, 0x2C63, 1, 0x1D7D); (0x2C64, 0x2C64, 1, 0x27D); (0x2C67, 0x2C6B, 2, 0x2C68);
    (0x2C6D, 0x2C6D, 1, 0x251); (0x2C6E, 0x2C6E, 1, 0x271); (0x2C6F, 0x2C6F, 1, 0x250);
    (0x2C70, 0x2C70, 1, 0x252); (0x2C72, 0x2C72, 1, 0x2C73); (0x2C75, 0x2C75, 1, 0x2C76);
    (0x2C7E, 0x2C7F, 1, 0x23F); (0x2C80, 0x2CE2, 2, 0x2C81); (0x2CEB, 0x2CED, 2, 0x2CEC);
    (0x2CF2, 0x2CF2, 1, 0x2CF3); (0xA640, 0xA66C, 2, 0xA641); (0xA680, 0xA69A, 2, 0xA681);
    (0xA722, 0xA72E, 2, 0xA723); (0xA732, 0xA76E, 2, 0xA733); (0xA779, 0xA77B, 2, 0xA77A);
    (0xA77D, 0xA77D, 1, 0x1D79); (0xA77E, 0xA786, 2, 0xA77F); (0xA78B, 0xA78B, 1, 0xA78C);
    (0xA78D, 0xA78D, 1, 0x265); (0xA790, 0xA792, 2, 0xA791); (0xA796, 0xA7A8, 2, 0xA797);
    (0xA7AA, 0xA7AA, 1, 0x266); (0xA7AB, 0xA7AB, 1, 0x25C); (0xA7AC, 0xA7AC, 1, 0x261);
    (0xA7AD, 0xA7AD, 1, 0x26C); (0xA7AE, 0xA7AE, 1, 0x26A); (0xA7B0, 0xA7B0, 1, 0x29E);
    (0xA7B1, 0xA7B1, 1, 0x287); (0xA7B2, 0xA7B2, 1, 0x29D); (0xA7B3, 0xA7B3, 1, 0xAB53);
    (0xA7B4, 0xA7C2, 2, 0xA7B5); (0xA7C4, 0xA7C4, 1, 0xA794); (0xA7C5, 0xA7C5, 1, 0x282);
    (0xA7C6, 0xA7C6, 1, 0x1D8E); (0xA7C7, 0xA7C9, 2, 0xA7C8); (0xA7D0, 0xA7D0, 1, 0xA7D1);
    (0xA7D6, 0xA7D8, 2, 0xA7D7); (0xA7F5, 0xA7F5, 1, 0xA7F6); (0xFF21, 0xFF3A, 1, 0xFF41);
    (0x10400, 0x10427, 1, 0x10428); (0x104B0, 0x104D3, 1, 0x104D8); (0x10570, 0x1057A, 1, 0x10597);
    (0x1057C, 0x1058A, 1, 0x105A3); (0x1058C, 0x10592, 1, 0x105B3); (0x10594, 0x10595, 1, 0x105BB);
    (0x10C80, 0x10CB2, 1, 0x10CC0); (0x118A0, 0x118BF, 1, 0x118C0); (0x16E40, 0x16E5F, 1, 0x16E60);
    (0x1E900, 0x1E921, 1, 0x1E922)
  ].

(** Code points with the Cased property ([_PyUnicode_IsCased]). *)
Definition cased_ranges : list (N * N) :=
  [
    (0x41, 0x5A); (0x61, 0x7A); (0xAA, 0xAA); (0xB5, 0xB5); (0xBA, 0xBA);
    (0xC0, 0xD6); (0xD8, 0xF6); (0xF8, 0x1BA); (0x1BC, 0x1BF); (0x1C4, 0x293);
    (0x295, 0x2B8); (0x2C0, 0x2C1); (0x2E0, 0x2E4); (0x345, 0x345); (0x370, 0x373);
    (0x376, 0x377); (0x37A, 0x37D); (0x37F, 0x37F); (0x386, 0x386); (0x388, 0x38A);
    (0x38C, 0x38C); (0x38E, 0x3A1); (0x3A3, 0x3F5); (0x3F7, 0x481); (0x48A, 0x52F);
    (0x531, 0x556); (0x560, 0x588); (0x10A0, 0x10C5); (0x10C7, 0x10C7); (0x10CD, 0x10CD);
    (0x10D0, 0x10FA); (0x10FD, 0x10FF); (0x13A0, 0x13F5); (0x13F8, 0x13FD); (0x1C80, 0x1C88);
    (0x1C90, 0x1CBA); (0x1CBD, 0x1CBF); (0x1D00, 0x1DBF); (0x1E00, 0x1F15); (0x1F18, 0x1F1D);
    (0x1F20, 0x1F45); (0x1F48, 0x1F4D); (0x1F50, 0x1F57); (0x1F59, 0x1F59); (0x1F5B, 0x1F5B);
    (0x1F5D, 0x1F5D); (0x1F5F, 0x1F7D); (0x1F80, 0x1FB4); (0x1FB6, 0x1FBC); (0x1FBE, 0x1FBE);
    (0x1FC2, 0x1FC4); (0x1FC6, 0x1FCC); (0x1FD0, 0x1FD3); (0x1FD6, 0x1FDB); (0x1FE0, 0x1FEC);
    (0x1FF2, 0x1FF4); (0x1FF6, 0x1FFC); (0x2071, 0x2071); (0x207F, 0x207F); (0x2090, 0x209C);
    (0x2102, 0x2102); (0x2107, 0x2107); (0x210A, 0x2113); (0x2115, 0x2115); (0x2119, 0x211D);
    (0x2124, 0x2124); (0x2126, 0x2126); (0x2128, 0x2128); (0x212A, 0x212D); (0x212F, 0x2134);
    (0x2139, 0x2139); (0x213C, 0x213F); (0x2145, 0x2149); (0x214E, 0x214E); (0x2160, 0x217F);
    (0x2183, 0x2184); (0x24B6, 0x24E9); (0x2C00, 0x2CE4); (0x2CEB, 0x2CEE); (0x2CF2, 0x2CF3);
    (0x2D00, 0x2D25); (0x2D27, 0x2D27); (0x2D2D, 0x2D2D); (0xA640, 0xA66D); (0xA680, 0xA69D);
    (0xA722, 0xA787); (0xA78B, 0xA78E); (0xA790, 0xA7CA); (0xA7D0, 0xA7D1); (0xA7D3, 0xA7D3);
    (0xA7D5, 0xA7D9); (0xA7F5, 0xA7F6); (0xA7F8, 0xA7FA); (0xAB30, 0xAB5A); (0xAB5C, 0xAB68);
    (0xAB70, 0xABBF); (0xFB00, 0xFB06); (0xFB13, 0xFB17); (0xFF21, 0xFF3A); (0xFF41, 0xFF5A);
    (0x10400, 0x1044F); (0x104B0, 0x104D3); (0x104D8, 0x104FB); (0x10570, 0x1057A); (0x1057C, 0x1058A);
    (0x1058C, 0x10592); (0x10594, 0x10595); (0x10597, 0x105A1); (0x105A3, 0x105B1); (0x105B3, 0x105B9);
    (0x105BB, 0x105BC); (0x10780, 0x10780); (0x10783, 0x10785); (0x10787, 0x107B0); (0x107B2, 0x107BA);
    (0x10C80, 0x10CB2); (0x10CC0, 0x10CF2); (0x118A0, 0x118DF); (0x16E40, 0x16E7F); (0x1D400, 0x1D454);
    (0x1D456, 0x1D49C); (0x1D49E, 0x1D49F); (0x1D4A2, 0x1D4A2); (0x1D4A5, 0x1D4A6); (0x1D4A9, 0x1D4AC);
    (0x1D4AE, 0x1D4B9); (0x1D4BB, 0x1D4BB); (0x1D4BD, 0x1D4C3); (0x1D4C5, 0x1D505); (0x1D507, 0x1D50A);
    (0x1D50D, 0x1D514); (0x1D516, 0x1D51C); (0x1D51E, 0x1D539); (0x1D53B, 0x1D53E); (0x1D540, 0x1D544);
    (0x1D546, 0x1D546); (0x1D54A, 0x1D550); (0x1D552, 0x1D6A5); (0x1D6A8, 0x1D6C0); (0x1D6C2, 0x1D6DA);
    (0x1D6DC, 0x1D6FA); (0x1D6FC, 0x1D714); (0x1D716, 0x1D734); (0x1D736, 0x1D74E); (0x1D750, 0x1D76E);
    (0x1D770, 0x1D788); (0x1D78A, 0x1D7A8); (0x1D7AA, 0x1D7C2); (0x1D7C4, 0x1D7CB); (0x1DF00, 0x1DF09);
    (0x1DF0B, 0x1DF1E); (0x1E900, 0x1E943); (0x1F130, 0x1F149); (0x1F150, 0x1F169); (0x1F170, 0x1F189)
  ].

(** Code points with the Case_Ignorable property
    ([_PyUnicode_IsCaseIgnorable]). *)
Definition case_ignorable_ranges : list (N * N) :=
  [
    (0x27, 0x27); (0x2E, 0x2E); (0x3A, 0x3A); (0x5E, 0x5E); (0x60, 0x60);
    (0xA8, 0xA8); (0xAD, 0xAD); (0xAF, 0xAF); (0xB4, 0xB4); (0xB7, 0xB8);
    (0x2B0, 0x36F); (0x374, 0x375); (0x37A, 0x37A); (0x384, 0x385); (0x387, 0x387);
    (0x483, 0x489); (0x559, 0x559); (0x55F, 0x55F); (0x591, 0x5BD); (0x5BF, 0x5BF);
    (0x5C1, 0x5C2); (0x5C4, 0x5C5); (0x5C7, 0x5C7); (0x5F4, 0x5F4); (0x600, 0x605);
    (0x610, 0x61A); (0x61C, 0x61C); (0x640, 0x640); (0x64B, 0x65F); (0x670, 0x670);
    (0x6D6, 0x6DD); (0x6DF, 0x6E8); (0x6EA, 0x6ED); (0x70F, 0x70F); (0x711, 0x711);
    (0x730, 0x74A); (0x7A6, 0x7B0); (0x7EB, 0x7F5); (0x7FA, 0x7FA); (0x7FD, 0x7FD);
    (0x816, 0x82D); (0x859, 0x85B); (0x888, 0x888); (0x890, 0x891); (0x898, 0x89F);
    (0x8C9, 0x902); (0x93A, 0x93A); (0x93C, 0x93C); (0x941, 0x948); (0x94D, 0x94D);
    (0x951, 0x957); (0x962, 0x963); (0x971, 0x971); (0x981, 0x981); (0x9BC, 0x9BC);
    (0x9C1, 0x9C4); (0x9CD, 0x9CD); (0x9E2, 0x9E3); (0x9FE, 0x9FE); (0xA01, 0xA02);
    (0xA3C, 0xA3C); (0xA41, 0xA42); (0xA47, 0xA48); (0xA4B, 0xA4D); (0xA51, 0xA51);
    (0xA70, 0xA71); (0xA75, 0xA75); (0xA81, 0xA82); (0xABC, 0xABC); (0xAC1, 0xAC5);
    (0xAC7, 0xAC8); (0xACD, 0xACD); (0xAE2, 0xAE3); (0xAFA, 0xAFF); (0xB01, 0xB01);
    (0xB3C, 0xB3C); (0xB3F, 0xB3F); (0xB41, 0xB44); (0xB4D, 0xB4D); (0xB55, 0xB56);
    (0xB62, 0xB63); (0xB82, 0xB82); (0xBC0, 0xBC0); (0xBCD, 0xBCD); (0xC00, 0xC00);
    (0xC04, 0xC04); (0xC3C, 0xC3C); (0xC3E, 0xC40); (0xC46, 0xC48); (0xC4A, 0xC4D);
    (0xC55, 0xC56); (0xC62, 0xC63); (0xC81, 0xC81); (0xCBC, 0xCBC); (0xCBF, 0xCBF);
    (0xCC6, 0xCC6); (0xCCC, 0xCCD); (0xCE2, 0xCE3); (0xD00, 0xD01); (0xD3B, 0xD3C);
    (0xD41, 0xD44); (0xD4D, 0xD4D); (0xD62, 0xD63); (0xD81, 0xD81); (0xDCA, 0xDCA);
    (0xDD2, 0xDD4); (0xDD6, 0xDD6); (0xE31, 0xE31); (0xE34, 0xE3A); (0xE46, 0xE4E);
    (0xEB1, 0xEB1); (0xEB4, 0xEBC); (0xEC6, 0xEC6); (0xEC8, 0xECD); (0xF18, 0xF19);
    (0xF35, 0xF35); (0xF37, 0xF37); (0xF39, 0xF39); (0xF71, 0xF7E); (0xF80, 0xF84);
    (0xF86, 0xF87); (0xF8D, 0xF97); (0xF99, 0xFBC); (0xFC6, 0xFC6); (0x102D, 0x1030);
    (0x1032, 0x1037); (0x1039, 0x103A); (0x103D, 0x103E); (0x1058, 0x1059); (0x105E, 0x1060);
    (0x1071, 0x1074); (0x1082, 0x1082); (0x1085, 0x1086); (0x108D, 0x108D); (0x109D, 0x109D);
    (0x10FC, 0x10FC); (0x135D, 0x135F); (0x1712, 0x1714); (0x1732, 0x1733); (0x1752, 0x1753);
    (0x1772, 0x1773); (0x17B4, 0x17B5); (0x17B7, 0x17BD); (0x17C6, 0x17C6); (0x17C9, 0x17D3);
    (0x17D7, 0x17D7); (0x17DD, 0x17DD); (0x180B, 0x180F); (0x1843, 0x1843); (0x1885, 0x1886);
    (0x18A9, 0x18A9); (0x1920, 0x1922); (0x1927, 0x1928); (0x1932, 0x1932); (0x1939, 0x193B);
    (0x1A17, 0x1A18); (0x1A1B, 0x1A1B); (0x1A56, 0x1A56); (0x1A58, 0x1A5E); (0x1A60, 0x1A60);
    (0x1A62, 0x1A62); (0x1A65, 0x1A6C); (0x1A73, 0x1A7C); (0x1A7F, 0x1A7F); (0x1AA7, 0x1AA7);
    (0x1AB0, 0x1ACE); (0x1B00, 0x1B03); (0x1B34, 0x1B34); (0x1B36, 0x1B3A); (0x1B3C, 0x1B3C);
    (0x1B42, 0x1B42); (0x1B6B, 0x1B73); (0x1B80, 0x1B81); (0x1BA2, 0x1BA5); (0x1BA8, 0x1BA9);
    (0x1BAB, 0x1BAD); (0x1BE6, 0x1BE6); (0x1BE8, 0x1BE9); (0x1BED, 0x1BED); (0x1BEF, 0x1BF1);
    (0x1C2C, 0x1C33); (0x1C36, 0x1C37); (0x1C78, 0x1C7D); (0x1CD0, 0x1CD2); (0x1CD4, 0x1CE0);
    (0x1CE2, 0x1CE8); (0x1CED, 0x1CED); (0x1CF4, 0x1CF4); (0x1CF8, 0x1CF9); (0x1D2C, 0x1D6A);
    (0x1D78, 0x1D78); (0x1D9B, 0x1DFF); (0x1FBD, 0x1FBD); (0x1FBF, 0x1FC1); (0x1FCD, 0x1FCF);
    (0x1FDD, 0x1FDF); (0x1FED, 0x1FEF); (0x1FFD, 0x1FFE); (0x200B, 0x200F); (0x2018, 0x2019);
    (0x2024, 0x2024); (0x2027, 0x2027); (0x202A, 0x202E); (0x2060, 0x2064); (0x2066, 0x206F);
    (0x2071, 0x2071); (0x207F, 0x207F); (0x2090, 0x209C); (0x20D0, 0x20F0); (0x2C7C, 0x2C7D);
    (0x2CEF, 0x2CF1); (0x2D6F, 0x2D6F); (0x2D7F, 0x2D7F); (0x2DE0, 0x2DFF); (0x2E2F, 0x2E2F);
    (0x3005, 0x3005); (0x302A, 0x302D); (0x3031, 0x3035); (0x303B, 0x303B); (0x3099, 0x309E);
    (0x30FC, 0x30FE); (0xA015, 0xA015); (0xA4F8, 0xA4FD); (0xA60C, 0xA60C); (0xA66F, 0xA672);
    (0xA674, 0xA67D); (0xA67F, 0xA67F); (0xA69C, 0xA69F); (0xA6F0, 0xA6F1); (0xA700, 0xA721);
    (0xA770, 0xA770); (0xA788, 0xA78A); (0xA7F2, 0xA7F4); (0xA7F8, 0xA7F9); (0xA802, 0xA802);
    (0xA806, 0xA806); (0xA80B, 0xA80B); (0xA825, 0xA826); (0xA82C, 0xA82C); (0xA8C4, 0xA8C5);
    (0xA8E0, 0xA8F1); (0xA8FF, 0xA8FF); (0xA926, 0xA92D); (0xA947, 0xA951); (0xA980, 0xA982);
    (0xA9B3, 0xA9B3); (0xA9B6, 0xA9B9); (0xA9BC, 0xA9BD); (0xA9CF, 0xA9CF); (0xA9E5, 0xA9E6);
    (0xAA29, 0xAA2E); (0xAA31, 0xAA32); (0xAA35, 0xAA36); (0xAA43, 0xAA43); (0xAA4C, 0xAA4C);
    (0xAA70, 0xAA70); (0xAA7C, 0xAA7C); (0xAAB0, 0xAAB0); (0xAAB2, 0xAAB4); (0xAAB7, 0xAAB8);
    (0xAABE, 0xAABF); (0xAAC1, 0xAAC1); (0xAADD, 0xAADD); (0xAAEC, 0xAAED); (0xAAF3, 0xAAF4);
    (0xAAF6, 0xAAF6); (0xAB5B, 0xAB5F); (0xAB69, 0xAB6B); (0xABE5, 0xABE5); (0xABE8, 0xABE8);
    (0xABED, 0xABED); (0xFB1E, 0xFB1E); (0xFBB2, 0xFBC2); (0xFE00, 0xFE0F); (0xFE13, 0xFE13);
    (0xFE20, 0xFE2F); (0xFE52, 0xFE52); (0xFE55, 0xFE55); (0xFEFF, 0xFEFF); (0xFF07, 0xFF07);
    (0xFF0E, 0xFF0E); (0xFF1A, 0xFF1A); (0xFF3E, 0xFF3E); (0xFF40, 0xFF40); (0xFF70, 0xFF70);
    (0xFF9E, 0xFF9F); (0xFFE3, 0xFFE3); (0xFFF9, 0xFFFB); (0x101FD, 0x101FD); (0x102E0, 0x102E0);
    (0x10376, 0x1037A); (0x10780, 0x10785); (0x10787, 0x107B0); (0x107B2, 0x107BA); (0x10A01, 0x10A03);
    (0x10A05, 0x10A06); (0x10A0C, 0x10A0F); (0x10A38, 0x10A3A); (0x10A3F, 0x10A3F); (0x10AE5, 0x10AE6);
    (0x10D24, 0x10D27); (0x10EAB, 0x10EAC); (0x10F46, 0x10F50); (0x10F82, 0x10F85); (0x11001, 0x11001);
    (0x11038, 0x11046); (0x11070, 0x11070); (0x11073, 0x11074); (0x1107F, 0x11081); (0x110B3, 0x110B6);
    (0x110B9, 0x110BA); (0x110BD, 0x110BD); (0x110C2, 0x110C2); (0x110CD, 0x110CD); (0x11100, 0x11102);
    (0x11127, 0x1112B); (0x1112D, 0x11134); (0x11173, 0x11173); (0x11180, 0x11181); (0x111B6, 0x111BE);
    (0x111C9, 0x111CC); (0x111CF, 0x111CF); (0x1122F, 0x11231); (0x11234, 0x11234); (0x11236, 0x11237);
    (0x1123E, 0x1123E); (0x112DF, 0x112DF); (0x112E3, 0x112EA); (0x11300, 0x11301); (0x1133B, 0x1133C);
    (0x11340, 0x11340); (0x11366, 0x1136C); (0x11370, 0x11374); (0x11438, 0x1143F); (0x11442, 0x11444);
    (0x11446, 0x11446); (0x1145E, 0x1145E); (0x114B3, 0x114B8); (0x114BA, 0x114BA); (0x114BF, 0x114C0);
    (0x114C2, 0x114C3); (0x115B2, 0x115B5); (0x115BC, 0x115BD); (0x115BF, 0x115C0); (0x115DC, 0x115DD);
    (0x11633, 0x1163A); (0x1163D, 0x1163D); (0x1163F, 0x11640); (0x116AB, 0x116AB); (0x116AD, 0x116AD);
    (0x116B0, 0x116B5); (0x116B7, 0x116B7); (0x1171D, 0x1171F); (0x11722, 0x11725); (0x11727, 0x1172B);
    (0x1182F, 0x11837); (0x11839, 0x1183A); (0x1193B, 0x1193C); (0x1193E, 0x1193E); (0x11943, 0x11943);
    (0x119D4, 0x119D7); (0x119DA, 0x119DB); (0x119E0, 0x119E0); (0x11A01, 0x11A0A); (0x11A33, 0x11A38);
    (0x11A3B, 0x11A3E); (0x11A47, 0x11A47); (0x11A51, 0x11A56); (0x11A59, 0x11A5B); (0x11A8A, 0x11A96);
    (0x11A98, 0x11A99); (0x11C30, 0x11C36); (0x11C38, 0x11C3D); (0x11C3F, 0x11C3F); (0x11C92, 0x11CA7);
    (0x11CAA, 0x11CB0); (0x11CB2, 0x11CB3); (0x11CB5, 0x11CB6); (0x11D31, 0x11D36); (0x11D3A, 0x11D3A);
    (0x11D3C, 0x11D3D); (0x11D3F, 0x11D45); (0x11D47, 0x11D47); (0x11D90, 0x11D91); (0x11D95, 0x11D95);
    (0x11D97, 0x11D97); (0x11EF3, 0x11EF4); (0x13430, 0x13438); (0x16AF0, 0x16AF4); (0x16B30, 0x16B36);
    (0x16B40, 0x16B43); (0x16F4F, 0x16F4F); (0x16F8F, 0x16F9F); (0x16FE0, 0x16FE1); (0x16FE3, 0x16FE4);
    (0x1AFF0, 0x1AFF3); (0x1AFF5, 0x1AFFB); (0x1AFFD, 0x1AFFE); (0x1BC9D, 0x1BC9E); (0x1BCA0, 0x1BCA3);
    (0x1CF00, 0x1CF2D); (0x1CF30, 0x1CF46); (0x1D167, 0x1D169); (0x1D173, 0x1D182); (0x1D185, 0x1D18B);
    (0x1D1AA, 0x1D1AD); (0x1D242, 0x1D244); (0x1DA00, 0x1DA36); (0x1DA3B, 0x1DA6C); (0x1DA75, 0x1DA75);
    (0x1DA84, 0x1DA84); (0x1DA9B, 0x1DA9F); (0x1DAA1, 0x1DAAF); (0x1E000, 0x1E006); (0x1E008, 0x1E018);
    (0x1E01B, 0x1E021); (0x1E023, 0x1E024); (0x1E026, 0x1E02A); (0x1E130, 0x1E13D); (0x1E2AE, 0x1E2AE);
    (0x1E2EC, 0x1E2EF); (0x1E8D0, 0x1E8D6); (0x1E944, 0x1E94B); (0x1F3FB, 0x1F3FF); (0xE0001, 0xE0001);
    (0xE0020, 0xE007F); (0xE0100, 0xE01EF)
  ].

Definition in_ranges (rs : list (N * N)) (c : N) : bool :=
  existsb (fun '(lo, hi) => (lo <=? c) && (c <=? hi)) rs.

Definition is_cased (c : N) : bool := in_ranges cased_ranges c.
Definition is_case_ignorable (c : N) : bool := in_ranges case_ignorable_ranges c.

Definition expand_range (r : N * N * N * N) : list (N * pystr) :=
  let '(lo, hi, step, img) := r in
  map (fun k => let d := N.of_nat k * step in (lo + d, [img + d]))
      (seq 0 (N.to_nat ((hi - lo) / step) + 1)).

(** The full lowercase mapping, one entry per code point it changes. *)
Definition to_lower_table : list (N * pystr) :=
  Eval vm_compute in
    (0x130, [0x69; 0x307]) :: flat_map expand_range to_lower_ranges.

(** [_PyUnicode_ToLowerFull]. *)
Definition to_lower_full (c : N) : pystr :=
  default [c] (assoc c to_lower_table).

(** First code point of [l] that is not case-ignorable, if any. *)
Fixpoint skip_ignorable (l : pystr) : option N :=
  match l with
  | [] => None
  | c :: l' => if is_case_ignorable c then skip_ignorable l' else Some c
  end.

Definition CAPITAL_SIGMA : N := 0x3A3.

(** [handle_capital_sigma]: U+03A3 lowers to the final sigma U+03C2 when a
    cased letter precedes it and none follows, case-ignorable code points
    aside.  [before] holds the code points to its left, nearest first. *)
Definition handle_capital_sigma (before after : pystr) : N :=
  let final_sigma :=
    match skip_ignorable before with
    | None => false
    | Some c =>
        is_cased c &&
        match skip_ignorable after with
        | None => true
        | Some d => negb (is_cased d)
        end
    end in
  if final_sigma then 0x3C2 else 0x3C3.

Fixpoint lower_from (before : pystr) (s : pystr) : pystr :=
  match s with
  | [] => []
  | c :: rest =>
      (if c =? CAPITAL_SIGMA then [handle_capital_sigma before rest]
       else to_lower_full c)
      ++ lower_from (c :: before) rest
  end.

(** [str.lower]. *)
Definition lower (s : pystr) : pystr := lower_from [] s.

(** [str.isspace] on one code point ([Py_UNICODE_ISSPACE]). *)
Definition is_space (c : N) : bool :=
  in_ranges
    [(0x9, 0xD); (0x1C, 0x20); (0x85, 0x85); (0xA0, 0xA0); (0x1680, 0x1680);
     (0x2000, 0x200A); (0x2028, 0x2029); (0x202F, 0x202F); (0x205F, 0x205F);
     (0x3000, 0x3000)] c.

Fixpoint lstrip (s : pystr) : pystr :=
  match s with
  | [] => []
  | c :: rest => if is_space c then lstrip rest else s
  end.

Definition rstrip (s : pystr) : pystr := rev (lstrip (rev s)).

(** [str.strip] without argument. *)
Definition strip (s : pystr) : pystr := rstrip (lstrip s).

(** [str.translate] with a table from [str.maketrans]: a code point bound in
    the table is replaced by the string bound to it, any other is kept. *)
Definition translate (table : list (N * pystr)) (s : pystr) : pystr :=
  flat_map (fun c => default [c] (assoc c table)) s.

(** ** [normalize_name] *)

Definition replacements : list (N * pystr) :=
  [ (0xE7,  py "c");   (* c with cedilla *)
    (0x11F, py "g");   (* g with breve *)
    (0x131, py "i");   (* dotless i *)
    (0xF6,  py "o");   (* o with diaeresis *)
    (0x15F, py "s");   (* s with cedilla *)
    (0xFC,  py "u");   (* u with diaeresis *)
    (0xC7,  py "c");   (* capital C with cedilla *)
    (0x11E, py "g");   (* capital G with breve *)
    (0x130, py "i");   (* capital I with dot above *)
    (0x49,  py "i");   (* capital I *)
    (0xD6,  py "o");   (* capital O with diaeresis *)
    (0x15E, py "s");   (* capital S with cedilla *)
    (0xDC,  py "u")    (* capital U with diaeresis *)
  ].

Definition normalize_name (name : pystr) : pystr :=
  strip (lower (translate replacements name)).

Local Close Scope N_scope.

(** ** Python values

    The values [json.load] produces and the program passes around.  A JSON
    number is kept as an integer: the program only ever tests a number for
    truth or fails on it for want of a method, where a float behaves as an
    integer does. *)

Inductive pyval :=
| PNone
| PBool (b : bool)
| PInt (z : Z)
| PStr (s : pystr)
| PList (l : list pyval)
| PDict (d : gmap pystr pyval).

Inductive request_error :=
| ConnectionError
| Timeout
| HTTPError (status_code : Z).

Inductive exn :=
| KeyError (key : pyval)
| IndexError
| TypeError
| AttributeError
| FileNotFoundError
| JSONDecodeError
| UnicodeEncodeError
| RequestException (e : request_error)
| RuntimeError (msg : string) (cause : option exn).

Inductive result (A : Type) :=
| Ok (a : A)
| Raise (e : exn).
Arguments Ok {A} a.
Arguments Raise {A} e.

Definition rbind {A B} (r : result A) (k : A -> result B) : result B :=
  match r with
  | Ok a => k a
  | Raise e => Raise e
  end.

Declare Scope py_scope.
Delimit Scope py_scope with py.
Notation "x <- r ;; k" := (rbind r (fun x => k))
  (at level 100, r at next level, right associativity) : py_scope.

Section Values.
Local Open Scope py_scope.

(** [bool(x)]. *)
Definition truthy (x : pyval) : bool :=
  match x with
  | PNone => false
  | PBool b => b
  | PInt z => negb (z =? 0)%Z
  | PStr s => match s with [] => false | _ => true end
  | PList l => match l with [] => false | _ => true end
  | PDict d => match map_to_list d with [] => false | _ => true end
  end.

(** [x.get(k, dflt)]: only a dict has the method. *)
Definition dict_get (x : pyval) (k : pystr) (dflt : pyval) : result pyval :=
  match x with
  | PDict d => Ok (default dflt (d !! k))
  | _ => Raise AttributeError
  end.

(** [x[0]]. *)
Definition getitem0 (x : pyval) : result pyval :=
  match x with
  | PList (v :: _) => Ok v
  | PList [] => Raise IndexError
  | PStr (c :: _) => Ok (PStr [c])
  | PStr [] => Raise IndexError
  | PDict _ => Raise (KeyError (PInt 0))
  | _ => Raise TypeError
  end.

(** [x[k]] for a string [k]. *)
Definition getitem_str (x : pyval) (k : pystr) : result pyval :=
  match x with
  | PDict d =>
      match d !! k with
      | Some v => Ok v
      | None => Raise (KeyError (PStr k))
      end
  | _ => Raise TypeError
  end.

Fixpoint is_prefix (p s : pystr) : bool :=
  match p, s with
  | [], _ => true
  | _ :: _, [] => false
  | a :: p', b :: s' => (a =? b)%N && is_prefix p' s'
  end.

Fixpoint is_substring (p s : pystr) : bool :=
  is_prefix p s ||
  match s with
  | [] => false
  | _ :: s' => is_substring p s'
  end.

(** [k in x] for a string [k]. *)
Definition contains (x : pyval) (k : pystr) : result bool :=
  match x with
  | PDict d => Ok (bool_decide (is_Some (d !! k)))
  | PList l =>
      Ok (existsb (fun v => match v with
                            | PStr s => bool_decide (s = k)
                            | _ => false
                            end) l)
  | PStr s => Ok (is_substring k s)
  | _ => Raise TypeError
  end.

(** The values a [for] loop over [x] visits. *)
Definition iterate (x : pyval) : result (list pyval) :=
  match x with
  | PList l => Ok l
  | PStr s => Ok ((fun c => PStr [c]) <$> s)
  | PDict d => Ok ((fun kv => PStr kv.1) <$> map_to_list d)
  | _ => Raise TypeError
  end.

(** A call of [normalize_name]: only a [str] has [translate]. *)
Definition call_normalize_name (x : pyval) : result pystr :=
  match x with
  | PStr s => Ok (normalize_name s)
  | _ => Raise AttributeError
  end.
End Values.

(** ** The pure helpers of [app.py] *)

Section Helpers.
Local Open Scope py_scope.

(** The [for key in (...)] loop of [resolve_feature_key], with the
    [return] after it. *)
Fixpoint scan_keys (sample_props : pyval) (keys : list pystr) : result pystr :=
  match keys with
  | [] => Ok (py "properties.name")
  | key :: keys' =>
      present <- contains sample_props key ;;
      if present then Ok (py "properties." ++ key)
      else scan_keys sample_props keys'
  end.

Definition candidate_keys : list pystr :=
  [py "name"; py "NAME_1"; py "NAME"; py "province"].

Definition resolve_feature_key (geojson : pyval) : result pystr :=
  features <- dict_get geojson (py "features") (PList [PDict ∅]) ;;
  first <- getitem0 features ;;
  sample_props <- dict_get first (py "properties") (PDict ∅) ;;
  scan_keys sample_props candidate_keys.

(** [key.split(".", 1)[1]]: what follows the first dot. *)
Fixpoint after_first_dot (key : pystr) : result pystr :=
  match key with
  | [] => Raise IndexError
  | c :: rest => if (c =? 0x2E)%N then Ok rest else after_first_dot rest
  end.

(** The loop of [build_feature_name_map] over the features still to
    visit. *)
Fixpoint index_features (prop_key : pystr) (features : list pyval)
    (mapping : gmap pystr pystr) : result (gmap pystr pystr) :=
  match features with
  | [] => Ok mapping
  | feature :: rest =>
      props <- dict_get feature (py "properties") (PDict ∅) ;;
      raw_name <- dict_get props prop_key (PStr []) ;;
      if truthy raw_name then
        normalized <- call_normalize_name raw_name ;;
        match raw_name with
        | PStr original =>
            index_features prop_key rest (<[normalized := original]> mapping)
        | _ => Raise AttributeError
        end
      else index_features prop_key rest mapping
  end.

Definition build_feature_name_map (geojson : pyval) (key : pystr)
    : result (gmap pystr pystr) :=
  prop_key <- after_first_dot key ;;
  features <- dict_get geojson (py "features") (PList []) ;;
  todo <- iterate features ;;
  index_features prop_key todo ∅.

End Helpers.

(** A cell of the data frame: a value as it was put in, or the missing
    value [NaN]. *)
Inductive cell :=
| Value (v : pyval)
| NaN.

(** The three fields of a dict appended to [records] and of a row of the
    table [build_dataframe] returns; the first two are strings in both. *)
Record row_of (C : Type) := Row {
  name : pystr;
  feature_name : pystr;
  culture : C
}.
Arguments Row {C} name feature_name culture.
Arguments name {C} r.
Arguments feature_name {C} r.
Arguments culture {C} r.

Abbreviation entry := (row_of pyval).
Abbreviation row := (row_of cell).

Section Tables.
Local Open Scope py_scope.

(** The loop of [build_dataframe]; [records] is returned in the order of
    the [append]s. *)
Fixpoint join_items (feature_map : gmap pystr pystr) (items : list pyval)
    : result (list entry) :=
  match items with
  | [] => Ok []
  | item :: rest =>
      item_name <- getitem_str item (py "name") ;;
      normalized <- call_normalize_name item_name ;;
      match item_name with
      | PStr n =>
          let feature_name := default n (feature_map !! normalized) in
          item_culture <- getitem_str item (py "culture") ;;
          records <- join_items feature_map rest ;;
          Ok (Row n feature_name item_culture :: records)
      | _ => Raise AttributeError
      end
  end.

(** *** [pd.DataFrame(records)]

    The frame has the columns [name], [feature_name], [culture] and a row
    per record.  A column of strings, with or without [None] among them,
    is stored as text: the strings are encoded as UTF-8, which a lone
    surrogate does not allow, and a [None] becomes [NaN]. *)

Definition is_surrogate (c : N) : bool :=
  ((0xD800 <=? c) && (c <=? 0xDFFF))%N.

(** [s.encode("utf-8")] does not raise. *)
Definition encodable (s : pystr) : bool :=
  forallb (fun c => negb (is_surrogate c)) s.

Definition is_str (v : pyval) : bool :=
  match v with PStr _ => true | _ => false end.

Definition is_str_or_none (v : pyval) : bool :=
  match v with PStr _ | PNone => true | _ => false end.

(** A column that is inferred as text. *)
Definition is_text_column (column : list pyval) : bool :=
  forallb is_str_or_none column && existsb is_str column.

Definition value_encodable (v : pyval) : bool :=
  match v with PStr s => encodable s | _ => true end.

Definition text_cell (v : pyval) : cell :=
  match v with PNone => NaN | _ => Value v end.

(** The conversion of a text column: what it makes of each value, or the
    error of a string that cannot be encoded. *)
Definition to_text (column : list pyval) : result (pyval -> cell) :=
  if forallb value_encodable column then Ok text_cell
  else Raise UnicodeEncodeError.

Section Frame.

(** What pandas makes of a column that is not text (numbers, booleans,
    lists, dicts, [None] alone, or a mix of kinds): the conversion it
    applies to the values of the column, or the exception it raises.  Its
    rules are the library's and are taken as given. *)
Variable infer_objects : list pyval -> result (pyval -> cell).

Definition convert_column (column : list pyval) : result (pyval -> cell) :=
  if is_text_column column then to_text column else infer_objects column.

(** The columns are converted in the order of the keys; a frame of no
    record has no column to convert. *)
Definition DataFrame (records : list entry) : result (list row) :=
  match records with
  | [] => Ok []
  | _ =>
      _ <- convert_column ((fun r => PStr (name r)) <$> records) ;;
      _ <- convert_column ((fun r => PStr (feature_name r)) <$> records) ;;
      convert <- convert_column (culture <$> records) ;;
      Ok ((fun r => Row (name r) (feature_name r) (convert (culture r)))
            <$> records)
  end.

(** The loop, then [pd.DataFrame(records)]. *)
Definition build_dataframe (province_data : pyval)
    (feature_map : gmap pystr pystr) : result (list row) :=
  items <- iterate province_data ;;
  records <- join_items feature_map items ;;
  DataFrame records.
End Frame.

(** [st.selectbox]: the option the list selector currently shows, [None]
    when there is no option. *)
Definition selectbox (choice : nat) (options : list pystr) : pyval :=
  from_option PStr PNone (options !! choice).

(** [choice] is the position the list selector is at. *)
Definition select_province (choice : nat) (province_names : list pystr)
    (click_event : pyval) : result pyval :=
  if truthy click_event then
    event <- getitem0 click_event ;;
    customdata <- dict_get event (py "customdata") (PList [PStr []]) ;;
    clicked <- getitem0 customdata ;;
    if truthy clicked then Ok clicked
    else getitem0 (PList (PStr <$> province_names))
  else Ok (selectbox choice province_names).
End Tables.

(** ** The loaders

    The loaders read two files, may write one, and talk to the network.
    The JSON decoder belongs to the standard library and is not modelled:
    a text is taken as what [json.load] makes of it. *)

Inductive text :=
| NotJSON                 (* [json.load] raises on it *)
| JSONText (v : pyval).   (* [json.load] returns [v] *)

(** What a GET request meets: [requests.get] raises, or a response comes
    back with a status code and a body. *)
Inductive reply :=
| NoResponse (e : request_error)
| Response (status_code : Z) (body : text).

Record world := World {
  network : string -> reply;
  province_file : option text;          (* data/provinces.json *)
  geojson_file : option text;           (* data/tr-81-il.geojson *)
  requested : list string;              (* GET requests made, oldest first *)
  shown_errors : list string;           (* [st.error] messages, oldest first *)
  cached_province_data : option pyval;  (* [st.cache_data] of load_province_data *)
  cached_geojson : option pyval         (* [st.cache_data] of load_geojson *)
}.

(** Computations that read and change the world and may raise. *)
Definition io (A : Type) : Type := world -> result A * world.

Definition io_ret {A} (a : A) : io A := fun w => (Ok a, w).
Definition io_raise {A} (e : exn) : io A := fun w => (Raise e, w).
Definition io_bind {A B} (m : io A) (k : A -> io B) : io B :=
  fun w =>
    match m w with
    | (Ok a, w') => k a w'
    | (Raise e, w') => (Raise e, w')
    end.
Definition io_lift {A} (r : result A) : io A := fun w => (r, w).

Declare Scope io_scope.
Delimit Scope io_scope with io.
Notation "x <- m ;; k" := (io_bind m (fun x => k))
  (at level 100, m at next level, right associativity) : io_scope.
Notation "m ;; k" := (io_bind m (fun _ => k))
  (at level 100, right associativity) : io_scope.

Definition GEOJSON_URLS : list string :=
  [ "https://raw.githubusercontent.com/cihadturhan/geojson/main/tr-81-il.geojson";
    "https://raw.githubusercontent.com/cihadturhan/geojson/master/tr-81-il.geojson"
  ]%string.

Definition download_failed_message : string :=
  "İl sınırlarını içeren GeoJSON dosyası indirilemedi. Lütfen ağ bağlantınızı kontrol edip tekrar deneyin.".

Section Loaders.
Local Open Scope io_scope.

(** The world after one more effect. *)
Definition log_request (url : string) (w : world) : world :=
  World (network w) (province_file w) (geojson_file w)
        (requested w ++ [url]) (shown_errors w)
        (cached_province_data w) (cached_geojson w).

Definition store_geojson (t : text) (w : world) : world :=
  World (network w) (province_file w) (Some t)
        (requested w) (shown_errors w)
        (cached_province_data w) (cached_geojson w).

Definition show_error (msg : string) (w : world) : world :=
  World (network w) (province_file w) (geojson_file w)
        (requested w) (shown_errors w ++ [msg])
        (cached_province_data w) (cached_geojson w).

Definition keep_geojson (v : pyval) (w : world) : world :=
  World (network w) (province_file w) (geojson_file w)
        (requested w) (shown_errors w)
        (cached_province_data w) (Some v).

Definition keep_province_data (v : pyval) (w : world) : world :=
  World (network w) (province_file w) (geojson_file w)
        (requested w) (shown_errors w)
        (Some v) (cached_geojson w).

(** [json.load]. *)
Definition json_load (t : text) : result pyval :=
  match t with
  | JSONText v => Ok v
  | NotJSON => Raise JSONDecodeError
  end.

(** [path.open("r")] followed by [json.load]. *)
Definition read_json (file : option text) : result pyval :=
  match file with
  | Some t => json_load t
  | None => Raise FileNotFoundError
  end.

(** [response.raise_for_status()]. *)
Definition raise_for_status (status_code : Z) : result unit :=
  if ((400 <=? status_code) && (status_code <? 600))%Z
  then Raise (RequestException (HTTPError status_code))
  else Ok tt.

(** What the [try] block of [load_geojson] comes to, given what the
    request meets: a [RequestException] that is caught, or the body of
    the response. *)
Definition attempt (r : reply) : exn + text :=
  match r with
  | NoResponse e => inl (RequestException e)
  | Response status_code body =>
      match raise_for_status status_code with
      | Raise exc => inl exc
      | Ok _ => inr body
      end
  end.

Definition try_get (url : string) : io (exn + text) := fun w =>
  (Ok (attempt (network w url)), log_request url w).

(** [DATA_DIR.mkdir(...)] and [GEOJSON_PATH.write_text(...)]. *)
Definition write_geojson (t : text) : io unit := fun w =>
  (Ok tt, store_geojson t w).

Definition st_error (msg : string) : io unit := fun w =>
  (Ok tt, show_error msg w).

(** The [for url in GEOJSON_URLS] loop; the value is [last_error] when
    the loop is left. *)
Fixpoint download (urls : list string) (last_error : option exn)
    : io (option exn) :=
  match urls with
  | [] => io_ret last_error
  | url :: rest =>
      outcome <- try_get url ;;
      match outcome with
      | inl exc => download rest (Some exc)
      | inr body => write_geojson body ;; io_ret None
      end
  end.

(** The [if not GEOJSON_PATH.exists()] block. *)
Definition fetch_if_missing : io unit := fun w =>
  match geojson_file w with
  | Some _ => io_ret tt w
  | None =>
      (last_error <- download GEOJSON_URLS None ;;
       match last_error with
       | Some exc =>
           st_error download_failed_message ;;
           io_raise (RuntimeError "GeoJSON download failed" (Some exc))
       | None => io_ret tt
       end) w
  end.

(** The body of [load_geojson]. *)
Definition load_geojson_uncached : io pyval :=
  fetch_if_missing ;;
  (fun w => io_lift (read_json (geojson_file w)) w).

(** The body of [load_province_data]. *)
Definition load_province_data_uncached : io pyval :=
  fun w => io_lift (read_json (province_file w)) w.

(** [@st.cache_data]: a value once returned is returned again without
    running the body; a raised exception is not kept. *)
Definition load_geojson : io pyval := fun w =>
  match cached_geojson w with
  | Some v => (Ok v, w)
  | None =>
      match load_geojson_uncached w with
      | (Ok v, w') => (Ok v, keep_geojson v w')
      | (Raise e, w') => (Raise e, w')
      end
  end.

Definition load_province_data : io pyval := fun w =>
  match cached_province_data w with
  | Some v => (Ok v, w)
  | None =>
      match load_province_data_uncached w with
      | (Ok v, w') => (Ok v, keep_province_data v w')
      | (Raise e, w') => (Raise e, w')
      end
  end.

(** A fresh session on the same machine: the files stay, what
    [st.cache_data] kept is gone. *)
Definition new_session (w : world) : world :=
  World (network w) (province_file w) (geojson_file w)
        (requested w) (shown_errors w) None None.
End Loaders.

(** ** The script

    What lines 121 to 151 compute between the loaders and the detail
    panel; the figure is not modelled. *)

Section Script.
Local Open Scope py_scope.

(** [feature_key], [feature_map] and [df] from the loaded data (lines 123
    to 126); [infer_objects] is what pandas makes of a column that is not
    text. *)
Definition join_datasets (infer_objects : list pyval -> result (pyval -> cell))
    (province_data geojson : pyval) : result (list row) :=
  feature_key <- resolve_feature_key geojson ;;
  feature_map <- build_feature_name_map geojson feature_key ;;
  build_dataframe infer_objects province_data feature_map.

(** [df["name"].tolist()]: a frame made of no record has no column. *)
Definition name_column (df : list row) : result (list pystr) :=
  match df with
  | [] => Raise (KeyError (PStr (py "name")))
  | _ => Ok (name <$> df)
  end.

(** [df[df["name"] == selected].iloc[0]] for a selection that is a [str]:
    the first row of that name. *)
Definition selected_row (df : list row) (selected : pystr) : result row :=
  names <- name_column df ;;
  match filter (fun r => name r = selected) df with
  | r :: _ => Ok r
  | [] => Raise IndexError
  end.
End Script.

(** ** Vocabulary of the properties *)

(** A code point the substitution table rewrites. *)
Definition is_key (c : N) : bool :=
  match assoc c replacements with Some _ => true | None => false end.

(** A code point none of the three passes touches: the table does not
    bind it and lowering leaves it alone. *)
Definition settled (c : N) : bool :=
  negb (is_key c) && negb (c =? CAPITAL_SIGMA)%N &&
  match assoc c to_lower_table with Some _ => false | None => true end.

(** A content record: a dict with string fields [name] and [culture]. *)
Definition content_record (item : pyval) : Prop :=
  exists d n c,
    item = PDict d /\ d !! py "name" = Some (PStr n) /\
    d !! py "culture" = Some (PStr c).

(** The dict [rec] is what the loop appends for the content record
    [item]. *)
Definition joined_record (feature_map : gmap pystr pystr) (item : pyval)
    (rec : entry) : Prop :=
  exists d n c,
    item = PDict d /\ d !! py "name" = Some (PStr n) /\
    d !! py "culture" = Some c /\
    name rec = n /\ culture rec = c /\
    feature_name rec = match feature_map !! normalize_name n with
                       | Some original => original
                       | None => n
                       end.

(** Row [r] is content record [item] joined against the name index, its
    culture cell being what [convert] makes of the record's culture. *)
Definition joined_by (convert : pyval -> cell)
    (feature_map : gmap pystr pystr) (item : pyval) (r : row) : Prop :=
  exists d n c,
    item = PDict d /\ d !! py "name" = Some (PStr n) /\
    d !! py "culture" = Some c /\
    name r = n /\ culture r = convert c /\
    feature_name r = match feature_map !! normalize_name n with
                     | Some original => original
                     | None => n
                     end.





(** A record without a [name] or without a [culture]. *)
Definition lacks_field (item : pyval) : Prop :=
  exists d, item = PDict d /\
    (d !! py "name" = None \/ d !! py "culture" = None).

(** The first of [keys] that the property bag has. *)
Definition first_present (props : gmap pystr pyval) (keys : list pystr)
    : option pystr :=
  List.find (fun k => bool_decide (is_Some (props !! k))) keys.

(** A feature whose property bag holds a string under [prop_key], or
    nothing. *)
Definition named_feature (prop_key : pystr) (feature : pyval) : Prop :=
  exists f props,
    feature = PDict f /\ f !! py "properties" = Some (PDict props) /\
    (props !! prop_key = None \/ exists s, props !! prop_key = Some (PStr s)).

(** Every entry of a name index is keyed by the normal form of the
    original name it holds, and that name is not empty. *)
Definition index_sound (mapping : gmap pystr pystr) : Prop :=
  forall k v, mapping !! k = Some v -> k = normalize_name v /\ v <> [].

(** The two mirrors, in the order of [GEOJSON_URLS]. *)
Definition first_mirror : string := default ""%string (GEOJSON_URLS !! 0%nat).
Definition second_mirror : string := default ""%string (GEOJSON_URLS !! 1%nat).

(** The world after the requests to [urls], in order. *)
Definition log_requests (urls : list string) (w : world) : world :=
  foldl (fun w url => log_request url w) w urls.

(** The error the loop holds after [urls] all failed. *)
Fixpoint last_failure (net : string -> reply) (urls : list string)
    (last_error : option exn) : option exn :=
  match urls with
  | [] => last_error
  | url :: rest =>
      last_failure net rest
        (match attempt (net url) with
         | inl exc => Some exc
         | inr _ => last_error
         end)
  end.

(** [str.lower] on an ASCII code point. *)
Definition ascii_lower (c : N) : N :=
  if ((0x41 <=? c) && (c <=? 0x5A))%N then (c + 0x20)%N else c.

(** The code points of the runs [rs], one by one. *)
Definition expand_ranges (rs : list (N * N)) : list N :=
  flat_map (fun r => map (fun k => (r.1 + N.of_nat k)%N)
                         (seq 0 (N.to_nat (r.2 - r.1) + 1))) rs.

(** Whether a cased letter comes before, and whether none comes after,
    case-ignorable code points aside: the two halves of the final sigma
    test. *)
Definition cased_before (before : pystr) : bool :=
  match skip_ignorable before with
  | Some c => is_cased c
  | None => false
  end.

Definition uncased_after (after : pystr) : bool :=
  match skip_ignorable after with
  | Some d => negb (is_cased d)
  | None => true
  end.

(** What the proofs check of an ASCII code point and of a white space
    code point. *)
Definition ascii_check (c : N) : bool :=
  match default [c] (assoc c replacements) with
  | [c'] => negb (c' =? CAPITAL_SIGMA)%N &&
            bool_decide (to_lower_full c' = [ascii_lower c])
  | _ => false
  end.

Definition space_check (c : N) : bool :=
  negb (is_key c) && settled c &&
  negb (is_case_ignorable c) && negb (is_cased c).

(** The name the indexer reads from a feature: the non-empty string under
    [properties.prop_key], when there is one. *)
Definition raw_name (prop_key : pystr) (feature : pyval) : option pystr :=
  match feature with
  | PDict f =>
      match f !! py "properties" with
      | Some (PDict props) =>
          match props !! prop_key with
          | Some (PStr (c :: s)) => Some (c :: s)
          | _ => None
          end
      | _ => None
      end
  | _ => None
  end.

(** What one turn of the indexing loop does to the index, and the index
    after the features [features]. *)
Definition index_step (prop_key : pystr) (mapping : gmap pystr pystr)
    (feature : pyval) : gmap pystr pystr :=
  match raw_name prop_key feature with
  | Some s => <[normalize_name s := s]> mapping
  | None => mapping
  end.

Definition index_of (prop_key : pystr) (features : list pyval)
    (mapping : gmap pystr pystr) : gmap pystr pystr :=
  foldl (index_step prop_key) mapping features.

(** A feature the indexing loop gets past: a dict whose property bag, when
    it has one, is a dict that holds under [prop_key] a string or a value
    that counts as false. *)
Definition indexable (prop_key : pystr) (feature : pyval) : bool :=
  match feature with
  | PDict f =>
      match default (PDict ∅) (f !! py "properties") with
      | PDict props =>
          match default (PStr []) (props !! prop_key) with
          | PStr _ => true
          | raw => negb (truthy raw)
          end
      | _ => false
      end
  | _ => false
  end.


(** The same machine with another network. *)
Definition with_network (net : string -> reply) (w : world) : world :=
  World net (province_file w) (geojson_file w) (requested w)
        (shown_errors w) (cached_province_data w) (cached_geojson w).

(** ** Sample data

    The end-to-end example: one content record, Adana, and one boundary
    feature named ADANA. *)

Definition adana_collection : pyval :=
  PDict {[ py "features" :=
    PList [ PDict {[ py "properties" :=
              PDict {[ py "name" := PStr (py "ADANA") ]} ]} ] ]}.

Definition adana_index : gmap pystr pystr := {[ py "adana" := py "ADANA" ]}.

Definition adana_content : list pyval :=
  [ PDict {[ py "name" := PStr (py "Adana"); py "culture" := PStr (py "X") ]} ].

(** A collection whose first feature names itself under NAME and under
    province, and whose second feature is no feature at all. *)
Definition sample_props : gmap pystr pyval :=
  {[ py "NAME" := PStr (py "ADANA"); py "province" := PStr (py "Adana") ]}.

Definition sample_feature : gmap pystr pyval :=
  {[ py "properties" := PDict sample_props ]}.

Definition sample_collection : gmap pystr pyval :=
  {[ py "features" := PList [PDict sample_feature; PNone] ]}.

(** A feature named [s], and a collection in which two features share
    the key adana and a third has an empty name. *)
Definition named (s : pystr) : pyval :=
  PDict {[ py "properties" := PDict {[ py "name" := PStr s ]} ]}.

Definition twice_adana_features : list pyval :=
  [named (py "ADANA"); named (py "Adana"); named []].

Definition twice_adana : gmap pystr pyval :=
  {[ py "features" := PList twice_adana_features ]}.

Definition twice_adana_index : gmap pystr pystr :=
  {[ py "adana" := py "Adana" ]}.

(** A collection whose second feature is named by a number. *)
Definition numbered : gmap pystr pyval :=
  {[ py "features" :=
       PList [ named (py "ADANA");
               PDict {[ py "properties" := PDict {[ py "name" := PInt 7 ]} ]} ] ]}.

(** Content records of two provinces, and a record without culture. *)
Definition record (n c : pystr) : pyval :=
  PDict {[ py "name" := PStr n; py "culture" := PStr c ]}.

Definition two_records : list pyval :=
  [record (py "Adana") (py "X"); record (py "Ankara") (py "Y")].

Definition cultureless : gmap pystr pyval := {[ py "name" := PStr (py "Kars") ]}.

(** The frame of [two_records] joined against [adana_index]. *)
Definition adana_row : row :=
  Row (py "Adana") (py "ADANA") (Value (PStr (py "X"))).

Definition ankara_row : row :=
  Row (py "Ankara") (py "Ankara") (Value (PStr (py "Y"))).

Definition two_rows : list row := [adana_row; ankara_row].

(** A stand-in for what pandas makes of a column that is not text, to run
    the examples with: their columns are text, where it is not
    consulted. *)
Definition sample_inference : list pyval -> result (pyval -> cell) :=
  fun _ => Ok Value.


(** Two records, the second with a null culture. *)
Definition null_culture_records : list pyval :=
  [ PDict {[ py "name" := PStr (py "Adana"); py "culture" := PStr (py "X") ]};
    PDict {[ py "name" := PStr (py "Ankara"); py "culture" := PNone ]} ].




(** A content resource whose only record has no [name]. *)
Definition nameless_record : pyval :=
  PDict {[ py "culture" := PStr (py "X") ]}.

Definition two_names : list pystr := [py "Adana"; py "Ankara"].

(** A click on the second of [two_names], and a click that carries an
    empty name. *)
Definition click_on_ankara : pyval :=
  PList [ PDict {[ py "customdata" := PList [PStr (py "Ankara")] ]} ].

Definition empty_click : pyval :=
  PList [ PDict {[ py "customdata" := PList [PStr []] ]} ].

(** No mirror can be reached. *)
Definition offline : string -> reply :=
  fun _ => NoResponse ConnectionError.

(** Only the second mirror answers, with status 200 and [body]. *)
Definition second_mirror_only (body : text) : string -> reply :=
  fun url =>
    if String.eqb url second_mirror then Response 200 body
    else NoResponse ConnectionError.

(** Every mirror answers with status 200 and [body]. *)
Definition online (body : text) : string -> reply :=
  fun _ => Response 200 body.

(** The world at the start of a first session. *)
Definition first_run (net : string -> reply) (provinces boundaries : option text)
    : world :=
  World net provinces boundaries [] [] None None.

(** First sessions: a cache file that does not decode while the mirrors
    are up; a content resource with a record that has no [name]; no cache
    and no network; no cache and only the second mirror, serving the
    boundary data or something that does not decode. *)
Definition stale_cache_world : world :=
  first_run (online (JSONText adana_collection)) None (Some NotJSON).

Definition nameless_world : world :=
  first_run offline (Some (JSONText (PList [nameless_record]))) None.

Definition offline_world : world := first_run offline None None.

Definition second_mirror_world : world :=
  first_run (second_mirror_only (JSONText adana_collection)) None None.

Definition broken_mirror_world : world :=
  first_run (second_mirror_only NotJSON) None None.

(** First sessions with no cache and both mirrors up, serving the
    boundary data or something that does not decode. *)
Definition online_world : world :=
  first_run (online (JSONText adana_collection)) None None.

Definition broken_online_world : world :=
  first_run (online NotJSON) None None.

(** A first session with the boundary data in the cache file and no
    network. *)
Definition cached_world : world :=
  first_run offline None (Some (JSONText adana_collection)).

(** * Properties *)

(** ** The name normalizer *)

Section Normalizer.
Local Open Scope N_scope.

Lemma assoc_In {V} (c : N) (t : list (N * V)) (v : V) :
  assoc c t = Some v -> In (c, v) t.
Proof.
  induction t as [|[k x] t IH]; simpl; [discriminate|].
  destruct (N.eqb_spec k c) as [->|_].
  - intros [= ->]. now left.
  - intros H. right. auto.
Qed.

Lemma replacements_images :
  forallb (fun kv => forallb (fun d => negb (is_key d)) kv.2) replacements = true.
Proof. vm_compute. reflexivity. Qed.

Lemma to_lower_table_images :
  forallb (fun kv => is_key kv.1 || forallb settled kv.2) to_lower_table = true.
Proof. vm_compute. reflexivity. Qed.

Lemma sigma_images before after :
  settled (handle_capital_sigma before after) = true.
Proof.
  unfold handle_capital_sigma.
  destruct (match skip_ignorable before with None => _ | Some _ => _ end);
    vm_compute; reflexivity.
Qed.

Lemma translate1_not_key (c d : N) :
  In d (default [c] (assoc c replacements)) -> is_key d = false.
Proof.
  destruct (assoc c replacements) as [v|] eqn:E; simpl.
  - intros Hd. apply assoc_In in E.
    pose proof replacements_images as H.
    rewrite forallb_forall in H. specialize (H _ E). simpl in H.
    rewrite forallb_forall in H. specialize (H _ Hd).
    now apply negb_true_iff in H.
  - intros [<-|[]]. unfold is_key. now rewrite E.
Qed.

Lemma translate_not_key (s : pystr) :
  Forall (fun d => is_key d = false) (translate replacements s).
Proof.
  unfold translate. apply List.Forall_forall. intros d Hd.
  apply in_flat_map in Hd as (c & _ & Hd).
  eapply translate1_not_key; eauto.
Qed.

Lemma to_lower_full_settled (c : N) :
  is_key c = false -> c <> CAPITAL_SIGMA ->
  Forall (fun d => settled d = true) (to_lower_full c).
Proof.
  intros Hk Hs. unfold to_lower_full.
  destruct (assoc c to_lower_table) as [img|] eqn:E; simpl.
  - apply assoc_In in E.
    pose proof to_lower_table_images as H.
    rewrite forallb_forall in H. specialize (H _ E). simpl in H.
    rewrite Hk in H. simpl in H.
    apply List.Forall_forall. now rewrite forallb_forall in H.
  - constructor; [|constructor].
    unfold settled. rewrite Hk, E.
    apply N.eqb_neq in Hs. now rewrite Hs.
Qed.

Lemma lower_from_settled (s before : pystr) :
  Forall (fun d => is_key d = false) s ->
  Forall (fun d => settled d = true) (lower_from before s).
Proof.
  revert before. induction s as [|c s IH]; intros before Hs; simpl.
  - constructor.
  - inversion Hs as [|? ? Hc Hs']; subst.
    apply Forall_app. split; [|now apply IH].
    destruct (N.eqb_spec c CAPITAL_SIGMA) as [->|Hne].
    + constructor; [apply sigma_images|constructor].
    + now apply to_lower_full_settled.
Qed.

Lemma settled_spec (c : N) :
  settled c = true ->
  assoc c replacements = None /\ (c =? CAPITAL_SIGMA) = false /\
  assoc c to_lower_table = None.
Proof.
  unfold settled, is_key. intros H.
  apply andb_true_iff in H as [H H3]. apply andb_true_iff in H as [H1 H2].
  apply negb_true_iff in H2.
  destruct (assoc c replacements); [discriminate|].
  destruct (assoc c to_lower_table); [discriminate|]. auto.
Qed.

Lemma translate_settled (s : pystr) :
  Forall (fun d => settled d = true) s -> translate replacements s = s.
Proof.
  induction 1 as [|c s Hc _ IH]; [reflexivity|].
  change (translate replacements (c :: s))
    with (default [c] (assoc c replacements) ++ translate replacements s).
  apply settled_spec in Hc as (-> & _ & _). rewrite IH. reflexivity.
Qed.

Lemma lower_from_fixed (s before : pystr) :
  Forall (fun d => settled d = true) s -> lower_from before s = s.
Proof.
  intros H. revert before.
  induction H as [|c s Hc _ IH]; intros before; [reflexivity|].
  cbn [lower_from].
  apply settled_spec in Hc as (_ & Hs & Hl).
  rewrite Hs. unfold to_lower_full. rewrite Hl, IH. reflexivity.
Qed.

(** *** Stripping *)

Lemma lstrip_suffix (s : pystr) : exists p, s = p ++ lstrip s.
Proof.
  induction s as [|c s [p IH]]; simpl.
  - now exists [].
  - destruct (is_space c).
    + exists (c :: p). simpl. now rewrite <- IH.
    + now exists [].
Qed.

Lemma lstrip_head (s : pystr) (c : N) (r : pystr) :
  lstrip s = c :: r -> is_space c = false.
Proof.
  induction s as [|d s IH]; simpl; [discriminate|].
  destruct (is_space d) eqn:E; [exact IH|].
  now intros [= <- _].
Qed.

Lemma lstrip_idempotent (s : pystr) : lstrip (lstrip s) = lstrip s.
Proof.
  destruct (lstrip s) as [|c r] eqn:E; [reflexivity|].
  apply lstrip_head in E. simpl. now rewrite E.
Qed.

Lemma rstrip_prefix (s : pystr) : exists q, s = rstrip s ++ q.
Proof.
  unfold rstrip. destruct (lstrip_suffix (rev s)) as [p Hp].
  exists (rev p). rewrite <- rev_app_distr, <- Hp. now rewrite rev_involutive.
Qed.

Lemma strip_idempotent (s : pystr) : strip (strip s) = strip s.
Proof.
  unfold strip.
  assert (Hl : lstrip (rstrip (lstrip s)) = rstrip (lstrip s)).
  { destruct (rstrip_prefix (lstrip s)) as [q Hq].
    destruct (rstrip (lstrip s)) as [|c r] eqn:E; [reflexivity|].
    simpl in Hq. apply lstrip_head in Hq. simpl. now rewrite Hq. }
  rewrite Hl. unfold rstrip at 1 2.
  now rewrite rev_involutive, lstrip_idempotent.
Qed.

Lemma Forall_lstrip (P : N -> Prop) (s : pystr) :
  Forall P s -> Forall P (lstrip s).
Proof.
  induction 1 as [|c s Hc Hs IH]; simpl; [constructor|].
  destruct (is_space c); [exact IH|now constructor].
Qed.

Lemma Forall_strip (P : N -> Prop) (s : pystr) :
  Forall P s -> Forall P (strip s).
Proof.
  intros H. unfold strip, rstrip.
  apply Forall_rev, Forall_lstrip, Forall_rev, Forall_lstrip, H.
Qed.

(** What [normalize_name] returns holds settled code points only. *)
Lemma normalize_name_settled (s : pystr) :
  Forall (fun d => settled d = true) (normalize_name s).
Proof.
  unfold normalize_name, lower.
  apply Forall_strip, lower_from_settled, translate_not_key.
Qed.

(** C8: the dotted capital, the plain lowercase and the plain uppercase
    spelling of Istanbul all normalize to the one key "istanbul". *)
Theorem normalize_name_istanbul :
  normalize_name (0x130 :: py "stanbul") = py "istanbul" /\
  normalize_name (py "istanbul") = py "istanbul" /\
  normalize_name (py "ISTANBUL") = py "istanbul".
Proof. repeat split; vm_compute; reflexivity. Qed.

(** C9: on every string the call of [normalize_name] returns, without an
    exception, the one value the function has there, and normalizing
    that value again returns it unchanged. *)
Theorem normalize_name_idempotent (s : pystr) :
  call_normalize_name (PStr s) = Ok (normalize_name s) /\
  normalize_name (normalize_name s) = normalize_name s.
Proof.
  split; [reflexivity|].
  pose proof (normalize_name_settled s) as H.
  unfold normalize_name at 1.
  rewrite (translate_settled _ H).
  unfold lower. rewrite (lower_from_fixed _ _ H).
  unfold normalize_name. apply strip_idempotent.
Qed.
End Normalizer.

(** ** The feature key resolver *)

Section Resolver.

Lemma scan_keys_first_present (props : gmap pystr pyval) (keys : list pystr) :
  scan_keys (PDict props) keys =
  Ok (match first_present props keys with
      | Some key => py "properties." ++ key
      | None => py "properties.name"
      end).
Proof.
  induction keys as [|key keys IH]; [reflexivity|].
  cbn [scan_keys contains rbind]. unfold first_present. cbn [List.find].
  destruct (bool_decide (is_Some (props !! key))); [reflexivity|exact IH].
Qed.

(** With a first feature that carries a property bag, the resolver
    returns the first candidate the bag has, and [properties.name] when
    it has none. *)
Lemma resolve_feature_key_sample (g f props : gmap pystr pyval)
    (rest : list pyval) :
  g !! py "features" = Some (PList (PDict f :: rest)) ->
  f !! py "properties" = Some (PDict props) ->
  resolve_feature_key (PDict g) =
  Ok (match first_present props candidate_keys with
      | Some key => py "properties." ++ key
      | None => py "properties.name"
      end).
Proof.
  intros Hg Hf. unfold resolve_feature_key, dict_get.
  rewrite Hg. cbn [default from_option id rbind getitem0]. rewrite Hf. cbn [default from_option id rbind].
  apply scan_keys_first_present.
Qed.

(** Without a [features] entry the default sample [{}] is looked at. *)
Lemma resolve_feature_key_absent (g : gmap pystr pyval) :
  g !! py "features" = None ->
  resolve_feature_key (PDict g) = Ok (py "properties.name").
Proof.
  intros Hg. unfold resolve_feature_key, dict_get.
  rewrite Hg. cbn [default from_option id rbind getitem0].
  rewrite lookup_empty. cbn [default from_option id rbind].
  rewrite scan_keys_first_present. reflexivity.
Qed.

(** C3: on a collection whose [features] list is there and empty the
    resolver raises [IndexError]: the sample [[{}]] stands in for a
    missing list only. *)
Theorem resolve_feature_key_empty_features :
  resolve_feature_key (PDict {[ py "features" := PList [] ]}) = Raise IndexError.
Proof. vm_compute. reflexivity. Qed.
End Resolver.

(** ** The feature name indexer *)

Section Indexer.

Lemma index_features_sound (prop_key : pystr) (features : list pyval) :
  forall mapping mapping',
    index_sound mapping ->
    index_features prop_key features mapping = Ok mapping' ->
    index_sound mapping'.
Proof.
  induction features as [|feature rest IH]; intros mapping mapping' Hm Hrun.
  - injection Hrun as <-. exact Hm.
  - cbn [index_features] in Hrun.
    destruct (dict_get feature (py "properties") (PDict ∅)) as [props|];
      [|discriminate].
    cbn [rbind] in Hrun.
    destruct (dict_get props prop_key (PStr [])) as [raw_name|];
      [|discriminate].
    cbn [rbind] in Hrun.
    destruct (truthy raw_name) eqn:Ht; [|eapply IH; eauto].
    destruct raw_name as [| | |original| |]; try discriminate.
    cbn [call_normalize_name rbind] in Hrun.
    eapply IH; [|exact Hrun].
    intros k v Hkv.
    apply lookup_insert_Some in Hkv as [[<- <-]|[_ Hkv]]; [|now apply Hm].
    split; [reflexivity|]. intros ->. discriminate.
Qed.

Lemma index_features_returns (prop_key : pystr) (features : list pyval) :
  Forall (named_feature prop_key) features ->
  forall mapping, exists mapping',
    index_features prop_key features mapping = Ok mapping'.
Proof.
  induction 1 as [|feature rest Hf _ IH]; intros mapping.
  - now exists mapping.
  - destruct Hf as (f & props & -> & Hp & Hn).
    cbn [index_features dict_get]. rewrite Hp.
    cbn [default from_option id rbind dict_get].
    destruct Hn as [Hn|[s Hn]]; rewrite Hn; cbn [default from_option id truthy].
    + apply IH.
    + destruct s; cbn [call_normalize_name rbind]; apply IH.
Qed.

Lemma after_first_dot_properties (prop_key : pystr) :
  after_first_dot (py "properties." ++ prop_key) = Ok prop_key.
Proof. reflexivity. Qed.

(** On a feature collection whose name properties are strings the
    indexer returns an index. *)
Lemma build_feature_name_map_returns (g : gmap pystr pyval)
    (features : list pyval) (prop_key : pystr) :
  g !! py "features" = Some (PList features) ->
  Forall (named_feature prop_key) features ->
  exists mapping,
    build_feature_name_map (PDict g) (py "properties." ++ prop_key) = Ok mapping.
Proof.
  intros Hg Hfs. unfold build_feature_name_map.
  rewrite after_first_dot_properties. cbn [rbind dict_get].
  rewrite Hg. cbn [default from_option id rbind iterate].
  now apply index_features_returns.
Qed.

(** C10: in the index [build_feature_name_map] returns, every key is the
    normal form of the name stored under it, and no stored name is
    empty. *)
Theorem build_feature_name_map_sound (geojson : pyval) (key : pystr)
    (mapping : gmap pystr pystr) :
  build_feature_name_map geojson key = Ok mapping ->
  forall k v, mapping !! k = Some v -> k = normalize_name v /\ v <> [].
Proof.
  unfold build_feature_name_map. intros Hrun.
  destruct (after_first_dot key) as [prop_key|]; [|discriminate].
  cbn [rbind] in Hrun.
  destruct (dict_get geojson (py "features") (PList [])) as [features|];
    [|discriminate].
  cbn [rbind] in Hrun.
  destruct (iterate features) as [todo|]; [|discriminate].
  cbn [rbind] in Hrun.
  eapply index_features_sound; [|exact Hrun].
  intros k v Hkv. rewrite lookup_empty in Hkv. discriminate.
Qed.

Lemma build_feature_name_map_sound_witness :
  build_feature_name_map adana_collection (py "properties.name")
    = Ok adana_index /\
  forall k v,
    adana_index !! k = Some v ->
    k = normalize_name v /\ v <> [].
Proof.
  assert (H : build_feature_name_map adana_collection (py "properties.name")
              = Ok adana_index) by (vm_compute; reflexivity).
  split; [exact H|].
  exact (build_feature_name_map_sound _ _ _ H).
Defined.
End Indexer.

(** ** The dataset joiner *)

Section FrameFacts.
Variable infer_objects : list pyval -> result (pyval -> cell).



(** When a frame is returned, its rows are the records with the culture
    cells the conversion of the culture column gives. *)
Lemma DataFrame_inv (records : list entry) (rows : list row) :
  DataFrame infer_objects records = Ok rows ->
  exists convert,
    (records <> [] ->
     convert_column infer_objects (culture <$> records) = Ok convert) /\
    rows = (fun r => Row (name r) (feature_name r) (convert (culture r)))
             <$> records.
Proof.
  unfold DataFrame. destruct records as [|r records].
  - intros [= <-]. exists Value. split; [intros H; now contradiction H|reflexivity].
  - destruct (convert_column infer_objects
                ((fun r => PStr (name r)) <$> r :: records)); [|discriminate].
    cbn [rbind].
    destruct (convert_column infer_objects
                ((fun r => PStr (feature_name r)) <$> r :: records));
      [|discriminate].
    cbn [rbind].
    destruct (convert_column infer_objects (culture <$> r :: records))
      as [convert|]; [|discriminate].
    cbn [rbind]. intros [= <-]. exists convert. split; reflexivity.
Qed.

(** A name that cannot be encoded stops the frame. *)
Lemma DataFrame_name_surrogate (records : list entry) :
  Exists (fun r => encodable (name r) = false) records ->
  DataFrame infer_objects records = Raise UnicodeEncodeError.
Proof.
  intros Hex. unfold DataFrame.
  destruct records as [|r records]; [inversion Hex|].
  set (rs := r :: records) in *.
  assert (Hconv : convert_column infer_objects ((fun r => PStr (name r)) <$> rs)
                  = Raise UnicodeEncodeError).
  { unfold convert_column, is_text_column, to_text.
    assert (H1 : forallb is_str_or_none ((fun r => PStr (name r)) <$> rs) = true).
    { apply forallb_forall. intros v Hv.
      apply in_map_iff in Hv as (x & <- & _). reflexivity. }
    assert (H3 : forallb value_encodable ((fun r => PStr (name r)) <$> rs)
                 = false).
    { apply not_true_is_false. intros H. rewrite forallb_forall in H.
      apply List.Exists_exists in Hex as (x & Hx & Hbad).
      specialize (H (PStr (name x))). cbn [value_encodable] in H.
      rewrite Hbad in H. discriminate H.
      apply in_map_iff. now exists x. }
    rewrite H1, H3. reflexivity. }
  rewrite Hconv. reflexivity.
Qed.
End FrameFacts.

Section Joiner.
Variable infer_objects : list pyval -> result (pyval -> cell).
Variable feature_map : gmap pystr pystr.

Lemma join_items_joined (items : list pyval) :
  Forall content_record items ->
  exists records,
    join_items feature_map items = Ok records /\
    Forall2 (joined_record feature_map) items records.
Proof.
  induction 1 as [|item rest Hitem _ (records & Hrun & Hrecords)].
  - exists []. split; [reflexivity|constructor].
  - destruct Hitem as (d & n & c & -> & Hn & Hc).
    exists (Row n (default n (feature_map !! normalize_name n)) (PStr c)
              :: records).
    split.
    + cbn [join_items getitem_str]. rewrite Hn.
      cbn [rbind call_normalize_name]. rewrite Hc. cbn [rbind].
      rewrite Hrun. reflexivity.
    + constructor; [|exact Hrecords].
      exists d, n, (PStr c). repeat split; assumption.
Qed.



(** A record that lacks a field stops the joiner: no table is returned,
    with or without that record. *)
Lemma join_items_lacking (items : list pyval) :
  Exists lacks_field items ->
  exists e, join_items feature_map items = Raise e.
Proof.
  induction items as [|item rest IH]; intros H; [inversion H|].
  assert (Hrest : Exists lacks_field rest ->
                  forall n f c, exists e,
                    (records <- join_items feature_map rest ;;
                     Ok (Row n f c :: records))%py = Raise e).
  { intros Hr n f c. destruct (IH Hr) as [e ->]. now exists e. }
  cbn [join_items].
  destruct (getitem_str item (py "name")) as [item_name|e] eqn:Hn;
    [|now exists e].
  cbn [rbind].
  destruct item_name as [| | |n| |]; try (now eexists).
  cbn [call_normalize_name rbind].
  destruct (getitem_str item (py "culture")) as [item_culture|e] eqn:Hc;
    [|now exists e].
  cbn [rbind].
  inversion H as [? ? (d & -> & Hd)|? ? Hr]; subst; [|now apply Hrest].
  cbn [getitem_str] in Hn, Hc.
  destruct Hd as [Hd|Hd]; rewrite Hd in *; discriminate.
Qed.
End Joiner.

(** ** The selection *)

Section Selection.

(** C2: for a non-empty list of names, a click whose first event carries
    a non-empty name yields that name; a click whose name payload is
    missing or empty yields the first name of the list; without a click
    the list selector's value is returned. *)
Theorem select_province_precedence (choice : nat) (province_names : list pystr)
    (click_event : pyval) :
  province_names <> [] ->
  (truthy click_event = false ->
   select_province choice province_names click_event
     = Ok (selectbox choice province_names)) /\
  (forall d rest clicked,
     click_event = PList (PDict d :: rest) ->
     getitem0 (default (PList [PStr []]) (d !! py "customdata")) = Ok clicked ->
     select_province choice province_names click_event
       = Ok (if truthy clicked then clicked
             else PStr (default [] (head province_names)))).
Proof.
  intros Hne. split.
  - intros Hc. unfold select_province. now rewrite Hc.
  - intros d rest clicked -> Hclicked.
    unfold select_province.
    cbn [truthy getitem0 rbind dict_get]. rewrite Hclicked. cbn [rbind].
    destruct (truthy clicked); [reflexivity|].
    destruct province_names as [|first others]; [contradiction|reflexivity].
Qed.
End Selection.

(** ** The loaders *)

Section LoaderProperties.

Lemma log_requests_fields (urls : list string) :
  forall w,
    network (log_requests urls w) = network w /\
    province_file (log_requests urls w) = province_file w /\
    geojson_file (log_requests urls w) = geojson_file w /\
    requested (log_requests urls w) = requested w ++ urls /\
    shown_errors (log_requests urls w) = shown_errors w /\
    cached_province_data (log_requests urls w) = cached_province_data w /\
    cached_geojson (log_requests urls w) = cached_geojson w.
Proof.
  induction urls as [|url rest IH]; intros w.
  - cbn [log_requests foldl]. rewrite app_nil_r. repeat split.
  - destruct (IH (log_request url w)) as (H1 & H2 & H3 & H4 & H5 & H6 & H7).
    unfold log_requests in *. cbn [foldl].
    rewrite H1, H2, H3, H4, H5, H6, H7. cbn [log_request requested].
    rewrite <- app_assoc. repeat split.
Qed.

(** While every request fails, the loop goes through the whole list and
    writes nothing. *)
Lemma download_all_fail (urls : list string) :
  forall last_error w,
    Forall (fun url => exists e, attempt (network w url) = inl e) urls ->
    download urls last_error w
      = (Ok (last_failure (network w) urls last_error), log_requests urls w).
Proof.
  induction urls as [|url rest IH]; intros last_error w Hall.
  - reflexivity.
  - inversion Hall as [|? ? [e He] Hrest]; subst.
    cbn [download last_failure]. unfold io_bind, try_get.
    rewrite He. apply (IH (Some e) (log_request url w)). exact Hrest.
Qed.

(** C4: a cache file that does not decode is no cache miss: the loader
    makes no request, leaves the file alone and raises the decoder's
    error. *)
Theorem load_geojson_unparseable_cache (w : world) :
  cached_geojson w = None ->
  geojson_file w = Some NotJSON ->
  load_geojson w = (Raise JSONDecodeError, w).
Proof.
  intros Hc Hf. unfold load_geojson. rewrite Hc.
  unfold load_geojson_uncached, io_bind, fetch_if_missing.
  rewrite Hf. cbn [io_ret io_lift]. rewrite Hf. reflexivity.
Qed.

(** C5: the content loader raises [FileNotFoundError] when the resource
    is missing and [JSONDecodeError] when it does not decode; whatever
    decodes is returned as it is, a record without [name] or [culture]
    included; such a record then stops [build_dataframe], which returns
    no table rather than one without the record. *)
Theorem load_province_data_outcomes (w : world) :
  cached_province_data w = None ->
  (province_file w = None ->
   load_province_data w = (Raise FileNotFoundError, w)) /\
  (province_file w = Some NotJSON ->
   load_province_data w = (Raise JSONDecodeError, w)) /\
  (forall v, province_file w = Some (JSONText v) ->
   load_province_data w = (Ok v, keep_province_data v w)) /\
  (forall infer_objects items feature_map,
     Exists lacks_field items ->
     exists e,
       build_dataframe infer_objects (PList items) feature_map = Raise e).
Proof.
  intros Hc. unfold load_province_data, load_province_data_uncached, io_lift.
  rewrite Hc. repeat split.
  - now intros ->.
  - now intros ->.
  - now intros v ->.
  - intros infer_objects items feature_map H.
    destruct (join_items_lacking feature_map items H) as [e He].
    exists e. unfold build_dataframe. cbn [iterate rbind]. now rewrite He.
Qed.

(** C6: with no cache file and every mirror failing, the loader raises
    the download error with the failure of the last mirror as its cause,
    after one request to each URL of the list, in order, and no cache
    file is there afterwards. *)
Theorem load_geojson_all_mirrors_fail (w : world) :
  cached_geojson w = None ->
  geojson_file w = None ->
  Forall (fun url => exists e, attempt (network w url) = inl e) GEOJSON_URLS ->
  exists cause w',
    load_geojson w
      = (Raise (RuntimeError "GeoJSON download failed" (Some cause)), w') /\
    attempt (network w second_mirror) = inl cause /\
    requested w' = requested w ++ GEOJSON_URLS /\
    geojson_file w' = None /\
    cached_geojson w' = None.
Proof.
  intros Hc Hf Hall.
  pose proof (download_all_fail GEOJSON_URLS None w Hall) as Hd.
  destruct (log_requests_fields GEOJSON_URLS w) as (_ & _ & H3 & H4 & _ & _ & H7).
  unfold GEOJSON_URLS in Hall.
  inversion Hall as [|? ? [e1 He1] Hall']; subst.
  inversion Hall' as [|? ? [e2 He2] _]; subst.
  exists e2, (show_error download_failed_message (log_requests GEOJSON_URLS w)).
  split; [|split; [exact He2|]].
  - unfold load_geojson. rewrite Hc.
    unfold load_geojson_uncached, io_bind, fetch_if_missing.
    rewrite Hf. unfold io_bind. rewrite Hd.
    unfold GEOJSON_URLS at 1. cbn [last_failure]. rewrite He1, He2.
    reflexivity.
  - cbn [show_error requested geojson_file cached_geojson].
    rewrite H3, H4, H7, Hf, Hc. repeat split.
Qed.

(** C7: with no cache file, the first mirror failing and the second
    answering without error status with a body that decodes, the loader
    returns the decoded body after one request to each mirror and leaves
    the body in the cache file; a further load, in the same session or in
    a fresh one, returns the same value and makes no request. *)
Theorem load_geojson_second_mirror (w : world) (e1 : exn) (status_code : Z)
    (v : pyval) :
  cached_geojson w = None ->
  geojson_file w = None ->
  attempt (network w first_mirror) = inl e1 ->
  network w second_mirror = Response status_code (JSONText v) ->
  raise_for_status status_code = Ok tt ->
  exists w1,
    load_geojson w = (Ok v, w1) /\
    geojson_file w1 = Some (JSONText v) /\
    requested w1 = requested w ++ [first_mirror; second_mirror] /\
    load_geojson w1 = (Ok v, w1) /\
    exists w2,
      load_geojson (new_session w1) = (Ok v, w2) /\
      requested w2 = requested w1 /\
      geojson_file w2 = geojson_file w1.
Proof.
  intros Hc Hf H1 H2 Hs.
  assert (Ha2 : attempt (network w second_mirror) = inr (JSONText v)).
  { rewrite H2. cbn [attempt]. now rewrite Hs. }
  set (w1 := keep_geojson v
               (store_geojson (JSONText v)
                  (log_request second_mirror (log_request first_mirror w)))).
  exists w1.
  assert (Hrun : load_geojson w = (Ok v, w1)).
  { unfold load_geojson. rewrite Hc.
    unfold load_geojson_uncached, io_bind, fetch_if_missing.
    rewrite Hf. unfold GEOJSON_URLS.
    cbn [download]. unfold io_bind, try_get.
    change (network w _) with (network w first_mirror) at 1.
    rewrite H1.
    change (network (log_request _ w) _) with (network w second_mirror).
    rewrite Ha2. reflexivity. }
  split; [exact Hrun|]. split; [reflexivity|].
  split; [cbn [w1 keep_geojson store_geojson log_request requested];
          now rewrite <- app_assoc|].
  split; [reflexivity|].
  exists (keep_geojson v (new_session w1)). repeat split.
Qed.
End LoaderProperties.

(** ** The properties at the sample data *)

Section Instances.


(** The joined row of the end-to-end example. *)
Example build_dataframe_adana :
  build_dataframe sample_inference (PList adana_content) adana_index
    = Ok [adana_row].
Proof. vm_compute. reflexivity. Qed.


(** A null culture next to a string comes back as [NaN]. *)
Example build_dataframe_null_culture :
  build_dataframe sample_inference (PList null_culture_records) adana_index
    = Ok [adana_row; Row (py "Ankara") (py "Ankara") NaN].
Proof. vm_compute. reflexivity. Qed.

Lemma select_province_precedence_witness :
  two_names <> [] /\
  (truthy click_on_ankara = false ->
   select_province 0 two_names click_on_ankara = Ok (selectbox 0 two_names)) /\
  (forall d rest clicked,
     click_on_ankara = PList (PDict d :: rest) ->
     getitem0 (default (PList [PStr []]) (d !! py "customdata")) = Ok clicked ->
     select_province 0 two_names click_on_ankara
       = Ok (if truthy clicked then clicked
             else PStr (default [] (head two_names)))).
Proof.
  assert (H : two_names <> []) by discriminate.
  split; [exact H|exact (select_province_precedence 0 two_names click_on_ankara H)].
Defined.

(** The click wins over the list selector. *)
Example select_province_click :
  select_province 0 two_names click_on_ankara = Ok (PStr (py "Ankara")).
Proof. vm_compute. reflexivity. Qed.

(** Against C2 as stated: the click carries an empty name and the list
    selector shows Ankara, yet Adana, the first name, is returned. *)
Lemma select_province_empty_click :
  two_names <> [] /\
  getitem0 (PList [PStr []]) = Ok (PStr []) /\
  selectbox 1 two_names = PStr (py "Ankara") /\
  select_province 1 two_names empty_click = Ok (PStr (py "Adana")) /\
  select_province 1 two_names empty_click <> Ok (selectbox 1 two_names).
Proof.
  split; [discriminate|]. split; [reflexivity|].
  split; [reflexivity|]. split; [vm_compute; reflexivity|].
  vm_compute. discriminate.
Qed.

Lemma load_geojson_unparseable_cache_witness :
  cached_geojson stale_cache_world = None /\
  geojson_file stale_cache_world = Some NotJSON /\
  load_geojson stale_cache_world = (Raise JSONDecodeError, stale_cache_world).
Proof.
  split; [reflexivity|]. split; [reflexivity|].
  apply (load_geojson_unparseable_cache stale_cache_world); reflexivity.
Defined.

(** Against C4 as stated: the cache file does not decode and both
    mirrors would answer, yet the loader fails and asks neither. *)
Lemma load_geojson_unparseable_cache_fails :
  geojson_file stale_cache_world = Some NotJSON /\
  attempt (network stale_cache_world first_mirror)
    = inr (JSONText adana_collection) /\
  attempt (network stale_cache_world second_mirror)
    = inr (JSONText adana_collection) /\
  fst (load_geojson stale_cache_world) = Raise JSONDecodeError /\
  requested (snd (load_geojson stale_cache_world)) = [].
Proof. repeat split. Qed.

Lemma load_province_data_outcomes_witness :
  cached_province_data nameless_world = None /\
  load_province_data nameless_world
    = (Ok (PList [nameless_record]),
       keep_province_data (PList [nameless_record]) nameless_world) /\
  exists e,
    build_dataframe sample_inference (PList [nameless_record]) adana_index
      = Raise e.
Proof.
  assert (Hc : cached_province_data nameless_world = None) by reflexivity.
  destruct (load_province_data_outcomes nameless_world Hc)
    as (_ & _ & Hv & Hjoin).
  split; [exact Hc|]. split.
  - apply Hv. reflexivity.
  - apply Hjoin. constructor.
    exists {[ py "culture" := PStr (py "X") ]}.
    split; [reflexivity|]. left. vm_compute. reflexivity.
Defined.

(** Against C5 as stated: the only record of the resource has no [name],
    and the loader returns it without raising. *)
Lemma load_province_data_nameless :
  province_file nameless_world = Some (JSONText (PList [nameless_record])) /\
  lacks_field nameless_record /\
  fst (load_province_data nameless_world) = Ok (PList [nameless_record]).
Proof.
  split; [reflexivity|]. split; [|reflexivity].
  exists {[ py "culture" := PStr (py "X") ]}.
  split; [reflexivity|]. left. vm_compute. reflexivity.
Qed.

(** The failure surfaces in the joiner, as a [KeyError]. *)
Example build_dataframe_nameless :
  build_dataframe sample_inference (PList [nameless_record]) adana_index
    = Raise (KeyError (PStr (py "name"))).
Proof. vm_compute. reflexivity. Qed.

Lemma load_geojson_all_mirrors_fail_witness :
  cached_geojson offline_world = None /\
  geojson_file offline_world = None /\
  Forall (fun url => exists e, attempt (network offline_world url) = inl e)
         GEOJSON_URLS /\
  exists cause w',
    load_geojson offline_world
      = (Raise (RuntimeError "GeoJSON download failed" (Some cause)), w') /\
    attempt (network offline_world second_mirror) = inl cause /\
    requested w' = requested offline_world ++ GEOJSON_URLS /\
    geojson_file w' = None /\
    cached_geojson w' = None.
Proof.
  assert (Hall : Forall (fun url => exists e,
                           attempt (network offline_world url) = inl e)
                        GEOJSON_URLS).
  { repeat constructor; exists (RequestException ConnectionError); reflexivity. }
  split; [reflexivity|]. split; [reflexivity|]. split; [exact Hall|].
  exact (load_geojson_all_mirrors_fail offline_world eq_refl eq_refl Hall).
Defined.

Lemma load_geojson_second_mirror_witness :
  cached_geojson second_mirror_world = None /\
  geojson_file second_mirror_world = None /\
  attempt (network second_mirror_world first_mirror)
    = inl (RequestException ConnectionError) /\
  network second_mirror_world second_mirror
    = Response 200 (JSONText adana_collection) /\
  raise_for_status 200 = Ok tt /\
  exists w1,
    load_geojson second_mirror_world = (Ok adana_collection, w1) /\
    geojson_file w1 = Some (JSONText adana_collection) /\
    requested w1
      = requested second_mirror_world ++ [first_mirror; second_mirror] /\
    load_geojson w1 = (Ok adana_collection, w1) /\
    exists w2,
      load_geojson (new_session w1) = (Ok adana_collection, w2) /\
      requested w2 = requested w1 /\
      geojson_file w2 = geojson_file w1.
Proof.
  assert (H1 : attempt (network second_mirror_world first_mirror)
               = inl (RequestException ConnectionError))
    by (vm_compute; reflexivity).
  assert (H2 : network second_mirror_world second_mirror
               = Response 200 (JSONText adana_collection))
    by (vm_compute; reflexivity).
  split; [reflexivity|]. split; [reflexivity|]. split; [exact H1|].
  split; [exact H2|]. split; [reflexivity|].
  exact (load_geojson_second_mirror second_mirror_world _ 200
           adana_collection eq_refl eq_refl H1 H2 eq_refl).
Defined.

(** Against C7 as stated: the second mirror answers with status 200 and
    a body that does not decode; the body is written to the cache file
    and the loader raises instead of returning it. *)
Lemma load_geojson_second_mirror_not_json :
  geojson_file broken_mirror_world = None /\
  attempt (network broken_mirror_world first_mirror)
    = inl (RequestException ConnectionError) /\
  network broken_mirror_world second_mirror = Response 200 NotJSON /\
  raise_for_status 200 = Ok tt /\
  fst (load_geojson broken_mirror_world) = Raise JSONDecodeError /\
  geojson_file (snd (load_geojson broken_mirror_world)) = Some NotJSON.
Proof. repeat split; vm_compute; reflexivity. Qed.
End Instances.

(** ** More on the name normalizer *)

Section NormalizerShape.
Local Open Scope N_scope.

Lemma lstrip_strip (s : pystr) : lstrip (strip s) = strip s.
Proof.
  unfold strip.
  destruct (rstrip_prefix (lstrip s)) as [q Hq].
  destruct (rstrip (lstrip s)) as [|c r] eqn:E; [reflexivity|].
  simpl in Hq. apply lstrip_head in Hq. simpl. now rewrite Hq.
Qed.

Lemma head_strip (s : pystr) (c : N) :
  head (strip s) = Some c -> is_space c = false.
Proof.
  intros H. destruct (strip s) as [|d r] eqn:E; [discriminate|].
  injection H as ->. pose proof (lstrip_strip s) as Hl. rewrite E in Hl.
  now apply lstrip_head in Hl.
Qed.

Lemma last_rev_head (l : pystr) : last (rev l) = head l.
Proof. destruct l as [|c l]; [reflexivity|]. simpl. apply last_snoc. Qed.

Lemma last_strip (s : pystr) (c : N) :
  last (strip s) = Some c -> is_space c = false.
Proof.
  unfold strip, rstrip. rewrite last_rev_head. intros H.
  destruct (lstrip (rev (lstrip s))) as [|d r] eqn:E; [discriminate|].
  injection H as ->. now apply lstrip_head in E.
Qed.

(** X1: A normalized name neither starts nor ends with white space. *)
Theorem normalize_name_trimmed (s : pystr) :
  match head (normalize_name s) with
  | Some c => is_space c = false
  | None => True
  end /\
  match last (normalize_name s) with
  | Some c => is_space c = false
  | None => True
  end.
Proof.
  unfold normalize_name. split.
  - destruct (head _) eqn:E; [|exact I]. now apply head_strip in E.
  - destruct (last _) eqn:E; [|exact I]. now apply last_strip in E.
Qed.

(** X2: A normalized name holds none of the letters the substitution table
    rewrites, and no code point that [str.lower] would change. *)
Theorem normalize_name_folded (s : pystr) :
  Forall (fun c => assoc c replacements = None /\ to_lower_full c = [c] /\
                   c <> CAPITAL_SIGMA)
         (normalize_name s).
Proof.
  eapply Forall_impl; [apply normalize_name_settled|].
  intros c Hc. apply settled_spec in Hc as (Hk & Hs & Hl).
  split; [exact Hk|]. split.
  - unfold to_lower_full. now rewrite Hl.
  - now apply N.eqb_neq.
Qed.

Lemma replacements_single :
  forallb (fun kv => length kv.2 =? 1)%nat replacements = true.
Proof. vm_compute. reflexivity. Qed.

Lemma to_lower_table_single :
  forallb (fun kv => is_key kv.1 || (length kv.2 =? 1)%nat) to_lower_table = true.
Proof. vm_compute. reflexivity. Qed.

Lemma translate_length (s : pystr) :
  length (translate replacements s) = length s.
Proof.
  induction s as [|c s IH]; [reflexivity|].
  change (translate replacements (c :: s))
    with (default [c] (assoc c replacements) ++ translate replacements s).
  rewrite length_app, IH.
  assert (H1 : length (default [c] (assoc c replacements)) = 1%nat).
  { destruct (assoc c replacements) as [v|] eqn:E; [|reflexivity].
    apply assoc_In in E. pose proof replacements_single as H.
    rewrite forallb_forall in H. specialize (H _ E).
    now apply Nat.eqb_eq in H. }
  rewrite H1. reflexivity.
Qed.

Lemma to_lower_full_single (c : N) :
  is_key c = false -> length (to_lower_full c) = 1%nat.
Proof.
  intros Hk. unfold to_lower_full.
  destruct (assoc c to_lower_table) as [v|] eqn:E; [|reflexivity].
  apply assoc_In in E. pose proof to_lower_table_single as H.
  rewrite forallb_forall in H. specialize (H _ E). cbn [fst snd] in H.
  rewrite Hk in H. now apply Nat.eqb_eq in H.
Qed.

Lemma lower_from_length (s before : pystr) :
  Forall (fun d => is_key d = false) s ->
  length (lower_from before s) = length s.
Proof.
  intros H. revert before.
  induction H as [|c s Hc _ IH]; intros before; [reflexivity|].
  cbn [lower_from]. rewrite length_app, IH.
  assert (H1 : length (if c =? CAPITAL_SIGMA
                      then [handle_capital_sigma before s]
                      else to_lower_full c) = 1%nat).
  { destruct (c =? CAPITAL_SIGMA); [reflexivity|now apply to_lower_full_single]. }
  rewrite H1. reflexivity.
Qed.

Lemma lstrip_length (s : pystr) : (length (lstrip s) <= length s)%nat.
Proof.
  induction s as [|c s IH]; simpl; [lia|].
  destruct (is_space c); simpl; lia.
Qed.

Lemma strip_length (s : pystr) : (length (strip s) <= length s)%nat.
Proof.
  unfold strip, rstrip. rewrite length_rev.
  etransitivity; [apply lstrip_length|]. rewrite length_rev.
  apply lstrip_length.
Qed.

(** X3: Normalizing never lengthens a name: substitution and lowering keep the
    number of code points, stripping can only lower it. *)
Theorem normalize_name_length (s : pystr) :
  length (lower (translate replacements s)) = length s /\
  (length (normalize_name s) <= length s)%nat.
Proof.
  assert (H : length (lower (translate replacements s)) = length s).
  { unfold lower. rewrite lower_from_length by apply translate_not_key.
    apply translate_length. }
  split; [exact H|].
  unfold normalize_name. etransitivity; [apply strip_length|]. now rewrite H.
Qed.
End NormalizerShape.

Section NormalizerAscii.
Local Open Scope N_scope.

Lemma ascii_checked :
  forallb ascii_check (map N.of_nat (seq 0 128)) = true.
Proof. vm_compute. reflexivity. Qed.

Lemma ascii_pointwise (c : N) :
  c < 128 ->
  exists c', default [c] (assoc c replacements) = [c'] /\
             (c' =? CAPITAL_SIGMA) = false /\
             to_lower_full c' = [ascii_lower c].
Proof.
  intros Hc. pose proof ascii_checked as H.
  rewrite forallb_forall in H.
  assert (Hin : In c (map N.of_nat (seq 0 128))).
  { apply in_map_iff. exists (N.to_nat c). split; [apply N2Nat.id|].
    apply in_seq. lia. }
  specialize (H _ Hin). unfold ascii_check in H.
  destruct (default [c] (assoc c replacements)) as [|c' [|? ?]];
    try discriminate.
  apply andb_true_iff in H as [H1 H2].
  apply negb_true_iff in H1. apply bool_decide_eq_true in H2.
  now exists c'.
Qed.

Lemma lower_from_translate_ascii (s before : pystr) :
  Forall (fun c => c < 128) s ->
  lower_from before (translate replacements s) = ascii_lower <$> s.
Proof.
  intros H. revert before.
  induction H as [|c s Hc _ IH]; intros before; [reflexivity|].
  change (translate replacements (c :: s))
    with (default [c] (assoc c replacements) ++ translate replacements s).
  destruct (ascii_pointwise c Hc) as (c' & -> & Hs & Hl).
  cbn [app lower_from]. rewrite Hs, Hl, IH. reflexivity.
Qed.

(** X4: On an ASCII name the normalizer is plain lowercasing and stripping:
    the substitution table only meets the capital I there. *)
Theorem normalize_name_ascii (s : pystr) :
  Forall (fun c => c < 128) s ->
  normalize_name s = strip (ascii_lower <$> s).
Proof.
  intros H. unfold normalize_name, lower.
  now rewrite lower_from_translate_ascii.
Qed.

Lemma normalize_name_ascii_witness :
  Forall (fun c => c < 128) (py " Kars ") /\
  normalize_name (py " Kars ") = strip (ascii_lower <$> py " Kars ").
Proof.
  assert (H : Forall (fun c => c < 128) (py " Kars "))
    by (repeat constructor).
  split; [exact H|exact (normalize_name_ascii _ H)].
Defined.
End NormalizerAscii.

Section NormalizerSpace.
Local Open Scope N_scope.

Lemma in_ranges_expand (rs : list (N * N)) (c : N) :
  in_ranges rs c = true -> In c (expand_ranges rs).
Proof.
  unfold in_ranges, expand_ranges.
  induction rs as [|[lo hi] rs IH]; cbn [existsb flat_map]; [discriminate|].
  intros H. apply in_or_app. apply orb_true_iff in H as [H|H]; [left|right; auto].
  apply andb_true_iff in H as [H1 H2].
  apply N.leb_le in H1, H2. cbn [fst snd].
  apply in_map_iff. exists (N.to_nat (c - lo)). split; [lia|].
  apply in_seq. lia.
Qed.

Lemma spaces_checked :
  forallb space_check
    (expand_ranges
       [(0x9, 0xD); (0x1C, 0x20); (0x85, 0x85); (0xA0, 0xA0); (0x1680, 0x1680);
        (0x2000, 0x200A); (0x2028, 0x2029); (0x202F, 0x202F); (0x205F, 0x205F);
        (0x3000, 0x3000)]) = true.
Proof. vm_compute. reflexivity. Qed.

Lemma space_facts (c : N) :
  is_space c = true ->
  settled c = true /\ is_case_ignorable c = false /\ is_cased c = false.
Proof.
  intros H. apply in_ranges_expand in H.
  pose proof spaces_checked as Hall. rewrite forallb_forall in Hall.
  specialize (Hall _ H). unfold space_check in Hall.
  apply andb_true_iff in Hall as [Hall H4].
  apply andb_true_iff in Hall as [Hall H3].
  apply andb_true_iff in Hall as [_ H2].
  apply negb_true_iff in H3, H4. auto.
Qed.

Lemma spaces_settled (ws : pystr) :
  Forall (fun c => is_space c = true) ws ->
  Forall (fun c => settled c = true) ws.
Proof.
  intros H. eapply Forall_impl; [exact H|].
  intros c Hc. now apply space_facts in Hc.
Qed.

Lemma handle_capital_sigma_halves (before after : pystr) :
  handle_capital_sigma before after =
  if cased_before before && uncased_after after then 0x3C2 else 0x3C3.
Proof.
  unfold handle_capital_sigma, cased_before, uncased_after.
  destruct (skip_ignorable before); [|reflexivity].
  destruct (skip_ignorable after); reflexivity.
Qed.

Lemma cased_before_spaces (before ws : pystr) :
  Forall (fun c => is_space c = true) ws ->
  cased_before (before ++ ws) = cased_before before.
Proof.
  intros Hws. unfold cased_before.
  induction before as [|c before IH]; cbn [app skip_ignorable].
  - destruct Hws as [|w ws Hw _]; [reflexivity|].
    apply space_facts in Hw as (_ & Hi & Hc).
    cbn [skip_ignorable]. now rewrite Hi, Hc.
  - destruct (is_case_ignorable c); [exact IH|reflexivity].
Qed.

Lemma uncased_after_spaces (after ws : pystr) :
  Forall (fun c => is_space c = true) ws ->
  uncased_after (after ++ ws) = uncased_after after.
Proof.
  intros Hws. unfold uncased_after.
  induction after as [|c after IH]; cbn [app skip_ignorable].
  - destruct Hws as [|w ws Hw _]; [reflexivity|].
    apply space_facts in Hw as (_ & Hi & Hc).
    cbn [skip_ignorable]. now rewrite Hi, Hc.
  - destruct (is_case_ignorable c); [exact IH|reflexivity].
Qed.

(** White space to the left of what came before, or to the right of what
    comes after, does not change how a string lowers. *)
Lemma lower_from_spaces_around (s before left_ws right_ws : pystr) :
  Forall (fun c => is_space c = true) left_ws ->
  Forall (fun c => is_space c = true) right_ws ->
  lower_from (before ++ left_ws) (s ++ right_ws)
    = lower_from before s ++ right_ws.
Proof.
  intros Hl Hr. revert before.
  induction s as [|c s IH]; intros before.
  - cbn [app lower_from]. apply lower_from_fixed. now apply spaces_settled.
  - cbn [app lower_from]. rewrite <- app_assoc. f_equal.
    + destruct (c =? CAPITAL_SIGMA); [|reflexivity].
      rewrite !handle_capital_sigma_halves.
      rewrite cased_before_spaces, uncased_after_spaces by assumption.
      reflexivity.
    + apply (IH (c :: before)).
Qed.

Lemma lower_from_spaces_first (ws s before : pystr) :
  Forall (fun c => is_space c = true) ws ->
  lower_from before (ws ++ s) = ws ++ lower_from (rev ws ++ before) s.
Proof.
  intros H. revert before.
  induction H as [|w ws Hw _ IH]; intros before; [reflexivity|].
  apply space_facts in Hw as (Hw & _ & _).
  apply settled_spec in Hw as (_ & Hs & Hl).
  cbn [app lower_from rev]. rewrite Hs. unfold to_lower_full at 1.
  rewrite Hl. cbn [default from_option id app]. f_equal.
  rewrite IH, <- app_assoc. reflexivity.
Qed.

Lemma lstrip_spaces_first (ws s : pystr) :
  Forall (fun c => is_space c = true) ws -> lstrip (ws ++ s) = lstrip s.
Proof.
  induction 1 as [|w ws Hw _ IH]; [reflexivity|].
  cbn [app lstrip]. now rewrite Hw.
Qed.

Lemma lstrip_app_spaces (s ws : pystr) :
  Forall (fun c => is_space c = true) ws ->
  lstrip (s ++ ws) = match lstrip s with [] => [] | _ => lstrip s ++ ws end.
Proof.
  intros H. induction s as [|c s IH]; cbn [app lstrip].
  - rewrite <- (app_nil_r ws). rewrite lstrip_spaces_first by assumption.
    reflexivity.
  - destruct (is_space c); [exact IH|reflexivity].
Qed.

Lemma rstrip_spaces_last (s ws : pystr) :
  Forall (fun c => is_space c = true) ws -> rstrip (s ++ ws) = rstrip s.
Proof.
  intros H. unfold rstrip. rewrite rev_app_distr.
  rewrite lstrip_spaces_first; [reflexivity|].
  now apply Forall_rev.
Qed.

Lemma strip_spaces_around (left_ws s right_ws : pystr) :
  Forall (fun c => is_space c = true) left_ws ->
  Forall (fun c => is_space c = true) right_ws ->
  strip (left_ws ++ s ++ right_ws) = strip s.
Proof.
  intros Hl Hr. unfold strip.
  rewrite lstrip_spaces_first, lstrip_app_spaces by assumption.
  destruct (lstrip s) as [|c t]; [reflexivity|].
  now apply rstrip_spaces_last.
Qed.

Lemma translate_app (s t : pystr) :
  translate replacements (s ++ t)
    = translate replacements s ++ translate replacements t.
Proof. unfold translate. apply flat_map_app. Qed.

(** X5: White space around a name does not change its key. *)
Theorem normalize_name_surrounding_space (left_ws s right_ws : pystr) :
  Forall (fun c => is_space c = true) left_ws ->
  Forall (fun c => is_space c = true) right_ws ->
  normalize_name (left_ws ++ s ++ right_ws) = normalize_name s.
Proof.
  intros Hl Hr. unfold normalize_name, lower.
  rewrite !translate_app.
  rewrite (translate_settled left_ws), (translate_settled right_ws)
    by now apply spaces_settled.
  rewrite lower_from_spaces_first by assumption.
  rewrite app_nil_r.
  rewrite (lower_from_spaces_around _ [] (rev left_ws) right_ws);
    [|now apply Forall_rev|assumption].
  now apply strip_spaces_around.
Qed.

Lemma normalize_name_surrounding_space_witness :
  Forall (fun c => is_space c = true) [0x20; 0x9] /\
  Forall (fun c => is_space c = true) [0xA0] /\
  normalize_name ([0x20; 0x9] ++ py "Adana" ++ [0xA0])
    = normalize_name (py "Adana").
Proof.
  assert (Hl : Forall (fun c => is_space c = true) [0x20; 0x9])
    by (repeat constructor).
  assert (Hr : Forall (fun c => is_space c = true) [0xA0])
    by (repeat constructor).
  split; [exact Hl|]. split; [exact Hr|].
  exact (normalize_name_surrounding_space _ (py "Adana") _ Hl Hr).
Defined.
End NormalizerSpace.

(** ** More on the feature key resolver *)

Section ResolverMore.

Lemma scan_keys_shape (sample_props : pyval) (keys : list pystr) (key : pystr) :
  scan_keys sample_props keys = Ok key ->
  (exists k, In k keys /\ key = py "properties." ++ k) \/
  key = py "properties.name".
Proof.
  induction keys as [|k keys IH]; cbn [scan_keys].
  - intros [= <-]. now right.
  - destruct (contains sample_props k) as [[|]|]; cbn [rbind];
      [| |discriminate].
    + intros [= <-]. left. exists k. split; [now left|reflexivity].
    + intros H. destruct (IH H) as [(k' & Hin & ->) | ->]; [left|now right].
      exists k'. split; [now right|reflexivity].
Qed.

(** X7: Whatever the collection, a key the resolver returns is [properties.]
    followed by one of the four candidates, so the split the indexer
    starts with finds its second part. *)
Theorem resolve_feature_key_shape (geojson : pyval) (key : pystr) :
  resolve_feature_key geojson = Ok key ->
  exists k,
    In k candidate_keys /\ key = py "properties." ++ k /\
    after_first_dot key = Ok k.
Proof.
  unfold resolve_feature_key. intros H.
  destruct (dict_get geojson (py "features") (PList [PDict ∅])) as [features|];
    [|discriminate].
  cbn [rbind] in H.
  destruct (getitem0 features) as [first|]; [|discriminate].
  cbn [rbind] in H.
  destruct (dict_get first (py "properties") (PDict ∅)) as [sample_props|];
    [|discriminate].
  cbn [rbind] in H.
  apply scan_keys_shape in H as [(k & Hin & ->) | ->].
  - exists k. split; [exact Hin|].
    split; [reflexivity|apply after_first_dot_properties].
  - exists (py "name"). split; [now left|]. split; reflexivity.
Qed.

Lemma resolve_feature_key_shape_witness :
  resolve_feature_key adana_collection = Ok (py "properties.name") /\
  exists k,
    In k candidate_keys /\ py "properties.name" = py "properties." ++ k /\
    after_first_dot (py "properties.name") = Ok k.
Proof.
  assert (H : resolve_feature_key adana_collection = Ok (py "properties.name"))
    by (vm_compute; reflexivity).
  split; [exact H|exact (resolve_feature_key_shape _ _ H)].
Defined.

(** X6: The resolver looks at the property bag of the first feature only and
    returns the first of name, NAME_1, NAME, province that the bag has;
    with none of them it returns [properties.name]. *)
Theorem resolve_feature_key_priority (g f props : gmap pystr pyval)
    (rest : list pyval) :
  g !! py "features" = Some (PList (PDict f :: rest)) ->
  f !! py "properties" = Some (PDict props) ->
  resolve_feature_key (PDict g) =
  Ok (match first_present props candidate_keys with
      | Some key => py "properties." ++ key
      | None => py "properties.name"
      end).
Proof. apply resolve_feature_key_sample. Qed.

Lemma resolve_feature_key_priority_witness :
  sample_collection !! py "features"
    = Some (PList [PDict sample_feature; PNone]) /\
  sample_feature !! py "properties" = Some (PDict sample_props) /\
  resolve_feature_key (PDict sample_collection) =
  Ok (match first_present sample_props candidate_keys with
      | Some key => py "properties." ++ key
      | None => py "properties.name"
      end).
Proof.
  assert (H1 : sample_collection !! py "features"
               = Some (PList [PDict sample_feature; PNone]))
    by (vm_compute; reflexivity).
  assert (H2 : sample_feature !! py "properties" = Some (PDict sample_props))
    by (vm_compute; reflexivity).
  split; [exact H1|]. split; [exact H2|].
  exact (resolve_feature_key_priority _ _ _ _ H1 H2).
Defined.

(** There the key is [properties.NAME]: NAME comes before province. *)
Example resolve_feature_key_sample_collection :
  resolve_feature_key (PDict sample_collection) = Ok (py "properties.NAME").
Proof. vm_compute. reflexivity. Qed.
End ResolverMore.

(** ** More on the feature name indexer *)

Section IndexerMore.
Variable prop_key : pystr.

(** One turn of the loop either raises or goes on with the index
    [index_step] gives. *)
Lemma index_features_turn (feature : pyval) (rest : list pyval)
    (mapping : gmap pystr pystr) :
  (exists e, index_features prop_key (feature :: rest) mapping = Raise e) \/
  index_features prop_key (feature :: rest) mapping
    = index_features prop_key rest (index_step prop_key mapping feature).
Proof.
  unfold index_step, raw_name. cbn [index_features].
  destruct feature as [| | | | |f]; try (left; eexists; reflexivity).
  cbn [dict_get rbind].
  destruct (f !! py "properties") as [props|];
    cbn [default from_option id]; [|right; reflexivity].
  destruct props as [| | | | |props]; try (left; eexists; reflexivity).
  cbn [dict_get rbind].
  destruct (props !! prop_key) as [raw|];
    cbn [default from_option id]; [|right; reflexivity].
  destruct raw as [|[]|z|[|c t]|[|x l]|d]; cbn [truthy];
    try (right; reflexivity); try (left; eexists; reflexivity).
  - destruct (negb (z =? 0)%Z); [left; eexists|right]; reflexivity.
  - destruct (map_to_list d); [right|left; eexists]; reflexivity.
Qed.

(** When the loop returns, it returns the fold of [index_step]. *)
Lemma index_features_fold (features : list pyval) :
  forall mapping mapping',
    index_features prop_key features mapping = Ok mapping' ->
    mapping' = index_of prop_key features mapping.
Proof.
  unfold index_of.
  induction features as [|feature rest IH]; intros mapping mapping' H.
  - now injection H as <-.
  - destruct (index_features_turn feature rest mapping) as [[e He]|Hgo].
    + rewrite He in H. discriminate.
    + rewrite Hgo in H. cbn [foldl]. now apply IH.
Qed.

Lemma index_of_app (pre post : list pyval) (mapping : gmap pystr pystr) :
  index_of prop_key (pre ++ post) mapping
    = index_of prop_key post (index_of prop_key pre mapping).
Proof. unfold index_of. apply foldl_app. Qed.

(** A key stays in the index, whatever comes after. *)
Lemma index_of_keeps (features : list pyval) :
  forall mapping k,
    is_Some (mapping !! k) ->
    is_Some (index_of prop_key features mapping !! k).
Proof.
  unfold index_of.
  induction features as [|feature rest IH]; intros mapping k Hk; [exact Hk|].
  cbn [foldl]. apply IH. unfold index_step.
  destruct (raw_name prop_key feature) as [s|]; [|exact Hk].
  rewrite lookup_insert. case_decide; [eauto|exact Hk].
Qed.

(** An entry stays as it is while no later feature has its key. *)
Lemma index_of_untouched (features : list pyval) :
  forall mapping k,
    Forall (fun g => forall t, raw_name prop_key g = Some t ->
                               normalize_name t <> k) features ->
    index_of prop_key features mapping !! k = mapping !! k.
Proof.
  unfold index_of.
  induction features as [|feature rest IH]; intros mapping k H; [reflexivity|].
  inversion H as [|? ? Hf Hrest]; subst.
  cbn [foldl]. rewrite IH by exact Hrest. unfold index_step.
  destruct (raw_name prop_key feature) as [s|] eqn:E; [|reflexivity].
  apply lookup_insert_ne. now apply Hf.
Qed.

(** Every entry comes from the index the loop started with or from a
    feature. *)
Lemma index_of_provenance (features : list pyval) :
  forall mapping k v,
    index_of prop_key features mapping !! k = Some v ->
    mapping !! k = Some v \/
    exists feature, In feature features /\ raw_name prop_key feature = Some v.
Proof.
  unfold index_of.
  induction features as [|feature rest IH]; intros mapping k v H; [now left|].
  cbn [foldl] in H. apply IH in H as [H|(g & Hin & Hg)].
  - unfold index_step in H.
    destruct (raw_name prop_key feature) as [s|] eqn:E; [|now left].
    apply lookup_insert_Some in H as [[_ <-]|[_ H]]; [right|now left].
    exists feature. split; [now left|exact E].
  - right. exists g. split; [now right|exact Hg].
Qed.
End IndexerMore.

Section IndexerResults.
Variables (g : gmap pystr pyval) (features : list pyval).
Variables (key prop_key : pystr) (mapping : gmap pystr pystr).
Hypothesis Hfeatures : g !! py "features" = Some (PList features).
Hypothesis Hkey : after_first_dot key = Ok prop_key.
Hypothesis Hrun : build_feature_name_map (PDict g) key = Ok mapping.

Lemma build_feature_name_map_fold :
  mapping = index_of prop_key features ∅.
Proof.
  unfold build_feature_name_map in Hrun. rewrite Hkey in Hrun.
  cbn [rbind dict_get] in Hrun. rewrite Hfeatures in Hrun.
  cbn [default from_option id rbind iterate] in Hrun.
  now apply index_features_fold.
Qed.

(** X9: Every feature that carries a non-empty name is found in the index
    under the normal form of that name. *)
Theorem build_feature_name_map_complete (feature : pyval) (s : pystr) :
  In feature features ->
  raw_name prop_key feature = Some s ->
  is_Some (mapping !! normalize_name s).
Proof.
  intros Hin Hs. rewrite build_feature_name_map_fold.
  apply in_split in Hin as (pre & post & Hsplit). rewrite Hsplit.
  rewrite index_of_app.
  change (feature :: post) with ([feature] ++ post). rewrite index_of_app.
  apply index_of_keeps.
  unfold index_of at 1. cbn [foldl]. unfold index_step. rewrite Hs.
  rewrite lookup_insert_eq. eauto.
Qed.

(** X10: Every name in the index is the name of a feature of the
    collection. *)
Theorem build_feature_name_map_provenance (k v : pystr) :
  mapping !! k = Some v ->
  exists feature, In feature features /\ raw_name prop_key feature = Some v.
Proof.
  rewrite build_feature_name_map_fold. intros H.
  apply index_of_provenance in H as [H|H]; [|exact H].
  rewrite lookup_empty in H. discriminate.
Qed.

(** X11: When two features normalize to one key the later one wins: the index
    holds the name of the last feature with that key. *)
Theorem build_feature_name_map_last_wins (pre post : list pyval)
    (feature : pyval) (s : pystr) :
  features = pre ++ feature :: post ->
  raw_name prop_key feature = Some s ->
  Forall (fun later => forall t, raw_name prop_key later = Some t ->
                                 normalize_name t <> normalize_name s) post ->
  mapping !! normalize_name s = Some s.
Proof.
  intros Hsplit Hs Hpost. rewrite build_feature_name_map_fold, Hsplit.
  rewrite index_of_app.
  change (feature :: post) with ([feature] ++ post). rewrite index_of_app.
  rewrite index_of_untouched by exact Hpost.
  unfold index_of at 1. cbn [foldl]. unfold index_step. rewrite Hs.
  apply lookup_insert_eq.
Qed.
End IndexerResults.

Section IndexerErrors.

Lemma index_features_turn_exact (prop_key : pystr) (feature : pyval)
    (rest : list pyval) (mapping : gmap pystr pystr) :
  index_features prop_key (feature :: rest) mapping
    = if indexable prop_key feature
      then index_features prop_key rest (index_step prop_key mapping feature)
      else Raise AttributeError.
Proof.
  unfold index_step, raw_name, indexable. cbn [index_features].
  destruct feature as [| | | | |f]; try reflexivity.
  cbn [dict_get rbind].
  destruct (f !! py "properties") as [props|];
    cbn [default from_option id]; [|rewrite lookup_empty; reflexivity].
  destruct props as [| | | | |props]; try reflexivity.
  cbn [dict_get rbind].
  destruct (props !! prop_key) as [raw|];
    cbn [default from_option id]; [|reflexivity].
  destruct raw as [|[]|z|[|c t]|[|x l]|d]; cbn [truthy negb]; try reflexivity.
  - destruct (negb (z =? 0)%Z); reflexivity.
  - destruct (map_to_list d); reflexivity.
Qed.

Lemma index_features_exact (prop_key : pystr) (features : list pyval) :
  forall mapping,
    index_features prop_key features mapping
      = if forallb (indexable prop_key) features
        then Ok (index_of prop_key features mapping)
        else Raise AttributeError.
Proof.
  induction features as [|feature rest IH]; intros mapping; [reflexivity|].
  rewrite index_features_turn_exact. cbn [forallb].
  destruct (indexable prop_key feature); [|reflexivity].
  cbn [andb]. apply IH.
Qed.

(** X8: On a collection with a list of features the indexer returns the fold
    of the loop's turn over the features when each of them is indexable,
    and raises [AttributeError] otherwise, as for a name that is a
    number. *)
Theorem build_feature_name_map_exact (g : gmap pystr pyval)
    (features : list pyval) (key prop_key : pystr) :
  g !! py "features" = Some (PList features) ->
  after_first_dot key = Ok prop_key ->
  build_feature_name_map (PDict g) key
    = if forallb (indexable prop_key) features
      then Ok (index_of prop_key features ∅)
      else Raise AttributeError.
Proof.
  intros Hg Hkey. unfold build_feature_name_map. rewrite Hkey.
  cbn [rbind dict_get]. rewrite Hg.
  cbn [default from_option id rbind iterate].
  apply index_features_exact.
Qed.

Lemma build_feature_name_map_exact_witness :
  numbered !! py "features"
    = Some (PList [ named (py "ADANA");
                    PDict {[ py "properties" :=
                               PDict {[ py "name" := PInt 7 ]} ]} ]) /\
  after_first_dot (py "properties.name") = Ok (py "name") /\
  build_feature_name_map (PDict numbered) (py "properties.name")
    = Raise AttributeError.
Proof.
  assert (H : numbered !! py "features"
    = Some (PList [ named (py "ADANA");
                    PDict {[ py "properties" :=
                               PDict {[ py "name" := PInt 7 ]} ]} ]))
    by (vm_compute; reflexivity).
  split; [exact H|]. split; [reflexivity|].
  exact (build_feature_name_map_exact numbered _ (py "properties.name")
           (py "name") H eq_refl).
Defined.

Lemma after_first_dot_none (key : pystr) :
  ~ In 0x2E%N key -> after_first_dot key = Raise IndexError.
Proof.
  induction key as [|c key IH]; [reflexivity|].
  intros H. cbn [after_first_dot].
  destruct (N.eqb_spec c 0x2E) as [->|_].
  - exfalso. apply H. now left.
  - apply IH. intros Hin. apply H. now right.
Qed.

(** X12: A key without a dot makes the indexer raise [IndexError], before the
    collection is looked at. *)
Theorem build_feature_name_map_no_dot (geojson : pyval) (key : pystr) :
  ~ In 0x2E%N key ->
  build_feature_name_map geojson key = Raise IndexError.
Proof.
  intros H. unfold build_feature_name_map.
  now rewrite after_first_dot_none.
Qed.

Lemma build_feature_name_map_no_dot_witness :
  ~ In 0x2E%N (py "name") /\
  build_feature_name_map adana_collection (py "name") = Raise IndexError.
Proof.
  assert (H : ~ In 0x2E%N (py "name")).
  { intros Hin. vm_compute in Hin. intuition discriminate. }
  split; [exact H|exact (build_feature_name_map_no_dot _ _ H)].
Defined.
End IndexerErrors.

Section IndexerWitnesses.

Lemma twice_adana_features_eq :
  twice_adana !! py "features" = Some (PList twice_adana_features).
Proof. vm_compute. reflexivity. Qed.

Lemma twice_adana_run :
  build_feature_name_map (PDict twice_adana) (py "properties.name")
    = Ok twice_adana_index.
Proof. vm_compute. reflexivity. Qed.

Lemma build_feature_name_map_complete_witness :
  twice_adana !! py "features" = Some (PList twice_adana_features) /\
  after_first_dot (py "properties.name") = Ok (py "name") /\
  build_feature_name_map (PDict twice_adana) (py "properties.name")
    = Ok twice_adana_index /\
  In (named (py "ADANA")) twice_adana_features /\
  raw_name (py "name") (named (py "ADANA")) = Some (py "ADANA") /\
  is_Some (twice_adana_index !! normalize_name (py "ADANA")).
Proof.
  assert (Hin : In (named (py "ADANA")) twice_adana_features) by now left.
  assert (Hs : raw_name (py "name") (named (py "ADANA")) = Some (py "ADANA"))
    by (vm_compute; reflexivity).
  split; [exact twice_adana_features_eq|]. split; [reflexivity|].
  split; [exact twice_adana_run|]. split; [exact Hin|]. split; [exact Hs|].
  exact (build_feature_name_map_complete twice_adana twice_adana_features
           (py "properties.name") (py "name") twice_adana_index
           twice_adana_features_eq
           eq_refl twice_adana_run _ _ Hin Hs).
Defined.

Lemma build_feature_name_map_provenance_witness :
  twice_adana !! py "features" = Some (PList twice_adana_features) /\
  after_first_dot (py "properties.name") = Ok (py "name") /\
  build_feature_name_map (PDict twice_adana) (py "properties.name")
    = Ok twice_adana_index /\
  twice_adana_index !! py "adana" = Some (py "Adana") /\
  exists feature,
    In feature twice_adana_features /\
    raw_name (py "name") feature = Some (py "Adana").
Proof.
  assert (Hk : twice_adana_index !! py "adana" = Some (py "Adana"))
    by (vm_compute; reflexivity).
  split; [exact twice_adana_features_eq|]. split; [reflexivity|].
  split; [exact twice_adana_run|]. split; [exact Hk|].
  exact (build_feature_name_map_provenance twice_adana twice_adana_features
           (py "properties.name") (py "name") twice_adana_index
           twice_adana_features_eq
           eq_refl twice_adana_run _ _ Hk).
Defined.

Lemma build_feature_name_map_last_wins_witness :
  twice_adana !! py "features" = Some (PList twice_adana_features) /\
  after_first_dot (py "properties.name") = Ok (py "name") /\
  build_feature_name_map (PDict twice_adana) (py "properties.name")
    = Ok twice_adana_index /\
  twice_adana_features
    = [named (py "ADANA")] ++ named (py "Adana") :: [named []] /\
  raw_name (py "name") (named (py "Adana")) = Some (py "Adana") /\
  Forall (fun later => forall t, raw_name (py "name") later = Some t ->
                                 normalize_name t <> normalize_name (py "Adana"))
         [named []] /\
  twice_adana_index !! normalize_name (py "Adana") = Some (py "Adana").
Proof.
  assert (Hs : raw_name (py "name") (named (py "Adana")) = Some (py "Adana"))
    by (vm_compute; reflexivity).
  assert (Hpost : Forall (fun later => forall t,
                     raw_name (py "name") later = Some t ->
                     normalize_name t <> normalize_name (py "Adana"))
                   [named []]).
  { constructor; [|constructor]. intros t Ht. vm_compute in Ht. discriminate. }
  split; [exact twice_adana_features_eq|]. split; [reflexivity|].
  split; [exact twice_adana_run|]. split; [reflexivity|].
  split; [exact Hs|]. split; [exact Hpost|].
  exact (build_feature_name_map_last_wins twice_adana twice_adana_features
           (py "properties.name") (py "name") twice_adana_index
           twice_adana_features_eq
           eq_refl twice_adana_run [named (py "ADANA")] [named []]
           (named (py "Adana")) (py "Adana") eq_refl Hs Hpost).
Defined.
End IndexerWitnesses.

(** ** More on the dataset joiner *)

Section JoinerMore.
Variable infer_objects : list pyval -> result (pyval -> cell).
Variable feature_map : gmap pystr pystr.

Lemma join_items_inv (items : list pyval) :
  forall records,
    join_items feature_map items = Ok records ->
    Forall2 (joined_record feature_map) items records.
Proof.
  induction items as [|item rest IH]; intros rows H.
  - injection H as <-. constructor.
  - cbn [join_items] in H.
    destruct item as [| | | | |d]; try discriminate.
    cbn [getitem_str] in H.
    destruct (d !! py "name") as [item_name|] eqn:Hn; [|discriminate].
    cbn [rbind] in H.
    destruct item_name as [| | |n| |]; try discriminate.
    cbn [call_normalize_name rbind] in H.
    destruct (d !! py "culture") as [c|] eqn:Hc; [|discriminate].
    cbn [rbind] in H.
    destruct (join_items feature_map rest) as [records|]; [|discriminate].
    cbn [rbind] in H. injection H as <-.
    constructor; [|now apply IH].
    exists d, n, c. repeat split; assumption.
Qed.

Lemma build_dataframe_inv (province_data : pyval) (rows : list row) :
  build_dataframe infer_objects province_data feature_map = Ok rows ->
  exists items records,
    iterate province_data = Ok items /\
    join_items feature_map items = Ok records /\
    DataFrame infer_objects records = Ok rows.
Proof.
  unfold build_dataframe. intros H.
  destruct (iterate province_data) as [items|] eqn:Hi; [|discriminate].
  cbn [rbind] in H.
  destruct (join_items feature_map items) as [records|] eqn:Hj;
    [|discriminate].
  cbn [rbind] in H. now exists items, records.
Qed.

(** X13: Whenever the joiner returns a table, the table has a row for
    every record, in order, and every record was a dict with a string name
    and a culture: no record is skipped.  The row has the record's name
    and the feature name the index gives; its culture cell is what the
    conversion of the culture column makes of the record's culture. *)
Theorem build_dataframe_no_drop (items : list pyval) (rows : list row) :
  build_dataframe infer_objects (PList items) feature_map = Ok rows ->
  length rows = length items /\
  exists convert cultures,
    Forall2 (fun item c => exists d, item = PDict d /\
                                     d !! py "culture" = Some c)
            items cultures /\
    (items <> [] -> convert_column infer_objects cultures = Ok convert) /\
    Forall2 (joined_by convert feature_map) items rows.
Proof.
  intros H. apply build_dataframe_inv in H as (items' & records & Hi & Hj & Hf).
  injection Hi as <-.
  apply join_items_inv in Hj.
  apply DataFrame_inv in Hf as (convert & Hconv & ->).
  split; [rewrite length_fmap; symmetry; eapply Forall2_length, Hj|].
  exists convert, (culture <$> records). split; [|split].
  - apply Forall2_fmap_r. eapply Forall2_impl; [exact Hj|].
    intros item rec (d & n & c & Hd & _ & Hc & _ & Hrc & _).
    exists d. now rewrite Hrc.
  - intros Hne. apply Hconv. intros ->. inversion Hj. now subst.
  - apply Forall2_fmap_r. eapply Forall2_impl; [exact Hj|].
    intros item rec (d & n & c & Hd & Hn & Hc & Hrn & Hrc & Hrf).
    exists d, n, c. cbn [name culture feature_name].
    rewrite Hrc. repeat split; assumption.
Qed.

(** X14: With an index whose keys are the normal forms of its names, the
    feature name of every row has the same normal form as the row's
    display name. *)
Theorem build_dataframe_same_key (province_data : pyval) (rows : list row) :
  index_sound feature_map ->
  build_dataframe infer_objects province_data feature_map = Ok rows ->
  Forall (fun r => normalize_name (feature_name r) = normalize_name (name r))
         rows.
Proof.
  intros Hsound H.
  apply build_dataframe_inv in H as (items & records & _ & Hj & Hf).
  apply join_items_inv in Hj.
  apply DataFrame_inv in Hf as (convert & _ & ->).
  apply Forall_fmap.
  induction Hj as [|item r items records Hjr _ IH]; constructor; [|exact IH].
  destruct Hjr as (d & n & c & _ & _ & _ & Hn & _ & Hf).
  cbn [compose name feature_name]. rewrite Hf, Hn.
  destruct (feature_map !! normalize_name n) as [original|] eqn:E;
    [|reflexivity].
  apply Hsound in E as [E _]. now symmetry.
Qed.

Lemma join_items_good_prefix (good rest : list pyval) (e : exn) :
  Forall content_record good ->
  join_items feature_map rest = Raise e ->
  join_items feature_map (good ++ rest) = Raise e.
Proof.
  intros Hgood Hrest.
  induction Hgood as [|item good (d & n & c & -> & Hn & Hc) _ IH];
    [exact Hrest|].
  cbn [app join_items getitem_str]. rewrite Hn.
  cbn [rbind call_normalize_name]. rewrite Hc. cbn [rbind].
  rewrite IH. reflexivity.
Qed.

Lemma build_dataframe_loop_error (items : list pyval) (e : exn) :
  join_items feature_map items = Raise e ->
  build_dataframe infer_objects (PList items) feature_map = Raise e.
Proof.
  intros H. unfold build_dataframe. cbn [iterate rbind]. now rewrite H.
Qed.

(** X15: The first record that lacks a field decides the error: [KeyError]
    for [name] when the name is missing, [KeyError] for [culture] when the
    name is a string and the culture is missing. *)
Theorem build_dataframe_key_error (good rest : list pyval)
    (d : gmap pystr pyval) :
  Forall content_record good ->
  (d !! py "name" = None ->
   build_dataframe infer_objects (PList (good ++ PDict d :: rest)) feature_map
     = Raise (KeyError (PStr (py "name")))) /\
  (forall n, d !! py "name" = Some (PStr n) -> d !! py "culture" = None ->
   build_dataframe infer_objects (PList (good ++ PDict d :: rest)) feature_map
     = Raise (KeyError (PStr (py "culture")))).
Proof.
  intros Hgood. split.
  - intros Hn. apply build_dataframe_loop_error.
    apply join_items_good_prefix; [exact Hgood|].
    cbn [join_items getitem_str]. now rewrite Hn.
  - intros n Hn Hc. apply build_dataframe_loop_error.
    apply join_items_good_prefix; [exact Hgood|].
    cbn [join_items getitem_str]. rewrite Hn.
    cbn [rbind call_normalize_name]. now rewrite Hc.
Qed.
End JoinerMore.

Section JoinerWitnesses.

Lemma build_dataframe_no_drop_witness :
  build_dataframe sample_inference (PList null_culture_records) adana_index
    = Ok [adana_row; Row (py "Ankara") (py "Ankara") NaN] /\
  length [adana_row; Row (py "Ankara") (py "Ankara") NaN]
    = length null_culture_records /\
  exists convert cultures,
    Forall2 (fun item c => exists d, item = PDict d /\
                                     d !! py "culture" = Some c)
            null_culture_records cultures /\
    (null_culture_records <> [] ->
     convert_column sample_inference cultures = Ok convert) /\
    Forall2 (joined_by convert adana_index) null_culture_records
            [adana_row; Row (py "Ankara") (py "Ankara") NaN].
Proof.
  assert (H : build_dataframe sample_inference (PList null_culture_records)
                adana_index
              = Ok [adana_row; Row (py "Ankara") (py "Ankara") NaN])
    by (vm_compute; reflexivity).
  split; [exact H|exact (build_dataframe_no_drop _ _ _ _ H)].
Defined.

Lemma adana_index_sound : index_sound adana_index.
Proof.
  intros k v H. unfold adana_index in H.
  apply lookup_singleton_Some in H as [<- <-].
  split; [vm_compute; reflexivity|discriminate].
Qed.

Lemma build_dataframe_same_key_witness :
  index_sound adana_index /\
  build_dataframe sample_inference (PList two_records) adana_index = Ok two_rows /\
  Forall (fun r => normalize_name (feature_name r) = normalize_name (name r))
         two_rows.
Proof.
  assert (H : build_dataframe sample_inference (PList two_records) adana_index
              = Ok two_rows)
    by (vm_compute; reflexivity).
  split; [exact adana_index_sound|]. split; [exact H|].
  exact (build_dataframe_same_key _ _ _ _ adana_index_sound H).
Defined.

Lemma two_records_content : Forall content_record two_records.
Proof.
  repeat constructor.
  - exists {[ py "name" := PStr (py "Adana"); py "culture" := PStr (py "X") ]},
      (py "Adana"), (py "X").
    repeat split; vm_compute; reflexivity.
  - exists {[ py "name" := PStr (py "Ankara"); py "culture" := PStr (py "Y") ]},
      (py "Ankara"), (py "Y").
    repeat split; vm_compute; reflexivity.
Qed.

Lemma build_dataframe_key_error_witness :
  Forall content_record two_records /\
  cultureless !! py "name" = Some (PStr (py "Kars")) /\
  cultureless !! py "culture" = None /\
  build_dataframe sample_inference
    (PList (two_records ++ PDict cultureless :: [])) adana_index
    = Raise (KeyError (PStr (py "culture"))).
Proof.
  assert (Hn : cultureless !! py "name" = Some (PStr (py "Kars")))
    by (vm_compute; reflexivity).
  assert (Hc : cultureless !! py "culture" = None)
    by (vm_compute; reflexivity).
  split; [exact two_records_content|]. split; [exact Hn|]. split; [exact Hc|].
  exact (proj2 (build_dataframe_key_error sample_inference adana_index
                  two_records []
                  cultureless two_records_content) _ Hn Hc).
Defined.
End JoinerWitnesses.

(** ** More on the selection *)

Section SelectionMore.

(** X16: The selection is a name of the list or the non-empty payload of the
    click: with the list selector inside the list, nothing else is ever
    returned. *)
Theorem select_province_in_names (choice : nat) (province_names : list pystr)
    (click_event v : pyval) :
  (choice < length province_names)%nat ->
  select_province choice province_names click_event = Ok v ->
  (exists n, v = PStr n /\ In n province_names) \/
  (truthy v = true /\
   exists event customdata,
     getitem0 click_event = Ok event /\
     dict_get event (py "customdata") (PList [PStr []]) = Ok customdata /\
     getitem0 customdata = Ok v).
Proof.
  intros Hlt. unfold select_province.
  destruct (truthy click_event).
  - destruct (getitem0 click_event) as [event|] eqn:He; [|discriminate].
    cbn [rbind].
    destruct (dict_get event (py "customdata") (PList [PStr []]))
      as [customdata|] eqn:Hd; [|discriminate].
    cbn [rbind].
    destruct (getitem0 customdata) as [clicked|] eqn:Hg; [|discriminate].
    cbn [rbind].
    destruct (truthy clicked) eqn:Ht.
    + intros [= <-]. right. split; [exact Ht|]. now exists event, customdata.
    + destruct province_names as [|n names]; [discriminate|].
      intros [= <-]. left. exists n. split; [reflexivity|now left].
  - intros [= <-]. left. unfold selectbox.
    destruct (lookup_lt_is_Some_2 province_names choice Hlt) as [n Hn].
    rewrite Hn. exists n. split; [reflexivity|].
    apply list_elem_of_In. eapply list_elem_of_lookup_2, Hn.
Qed.

Lemma select_province_in_names_witness :
  (1 < length two_names)%nat /\
  select_province 1 two_names empty_click = Ok (PStr (py "Adana")) /\
  ((exists n, PStr (py "Adana") = PStr n /\ In n two_names) \/
   (truthy (PStr (py "Adana")) = true /\
    exists event customdata,
      getitem0 empty_click = Ok event /\
      dict_get event (py "customdata") (PList [PStr []]) = Ok customdata /\
      getitem0 customdata = Ok (PStr (py "Adana")))).
Proof.
  assert (Hlt : (1 < length two_names)%nat) by (cbn; lia).
  assert (H : select_province 1 two_names empty_click = Ok (PStr (py "Adana")))
    by (vm_compute; reflexivity).
  split; [exact Hlt|]. split; [exact H|].
  exact (select_province_in_names 1 two_names empty_click _ Hlt H).
Defined.

(** X17: With no name to choose from: without a click the list selector has
    nothing to show and [None] is returned; a click with an empty payload
    raises [IndexError]. *)
Theorem select_province_no_names (choice : nat) (click_event : pyval)
    (d : gmap pystr pyval) (rest : list pyval) (clicked : pyval) :
  (truthy click_event = false ->
   select_province choice [] click_event = Ok PNone) /\
  (click_event = PList (PDict d :: rest) ->
   getitem0 (default (PList [PStr []]) (d !! py "customdata")) = Ok clicked ->
   truthy clicked = false ->
   select_province choice [] click_event = Raise IndexError).
Proof.
  split.
  - intros Hc. unfold select_province. rewrite Hc. now destruct choice.
  - intros -> Hclicked Ht. unfold select_province.
    cbn [truthy getitem0 rbind dict_get]. rewrite Hclicked. cbn [rbind].
    now rewrite Ht.
Qed.

Lemma select_province_no_names_witness :
  truthy PNone = false /\
  select_province 0 [] PNone = Ok PNone /\
  empty_click = PList [PDict {[ py "customdata" := PList [PStr []] ]}] /\
  select_province 0 [] empty_click = Raise IndexError.
Proof.
  split; [reflexivity|].
  split; [exact (proj1 (select_province_no_names 0 PNone ∅ [] PNone) eq_refl)|].
  split; [reflexivity|].
  refine (proj2 (select_province_no_names 0 empty_click
                   {[ py "customdata" := PList [PStr []] ]} [] (PStr []))
            eq_refl _ eq_refl).
  vm_compute. reflexivity.
Defined.
End SelectionMore.

(** ** The detail panel *)

Section DetailPanel.

Lemma filter_first (selected : pystr) (df : list row) (r : row) (t : list row) :
  filter (fun x => name x = selected) df = r :: t ->
  name r = selected /\
  exists pre post, df = pre ++ r :: post /\
                   Forall (fun x => name x <> selected) pre.
Proof.
  induction df as [|x df IH]; [discriminate|].
  rewrite filter_cons. case_decide as Hx.
  - intros [= -> _]. split; [exact Hx|]. exists [], df.
    split; [reflexivity|constructor].
  - intros H. destruct (IH H) as (Hr & pre & post & -> & Hpre).
    split; [exact Hr|]. exists (x :: pre), post.
    split; [reflexivity|now constructor].
Qed.

Lemma filter_none (selected : pystr) (df : list row) :
  ~ In selected (name <$> df) ->
  filter (fun x => name x = selected) df = [].
Proof.
  induction df as [|x df IH]; [reflexivity|].
  intros H. rewrite filter_cons. case_decide as Hx.
  - exfalso. apply H. left. exact Hx.
  - apply IH. intros Hin. apply H. now right.
Qed.

Lemma selected_row_inv (df : list row) (selected : pystr) (r : row) :
  selected_row df selected = Ok r ->
  name r = selected /\
  exists pre post, df = pre ++ r :: post /\
                   Forall (fun x => name x <> selected) pre.
Proof.
  unfold selected_row, name_column.
  destruct df as [|x df]; [discriminate|]. cbn [rbind].
  destruct (filter _ (x :: df)) as [|r' t] eqn:E; [discriminate|].
  intros [= ->]. now apply filter_first in E.
Qed.

Lemma selected_row_hit (df : list row) (selected : pystr) :
  df <> [] -> In selected (name <$> df) ->
  exists r, selected_row df selected = Ok r /\ name r = selected.
Proof.
  intros Hne Hin. unfold selected_row, name_column.
  destruct df as [|x df]; [contradiction|]. cbn [rbind].
  destruct (filter _ (x :: df)) as [|r t] eqn:E.
  - exfalso. apply in_map_iff in Hin as (y & Hy & Hin).
    apply list_elem_of_In in Hin.
    assert (Hf : y ∈ filter (fun x => name x = selected) (x :: df))
      by (apply list_elem_of_filter; auto).
    rewrite E in Hf. inversion Hf.
  - exists r. split; [reflexivity|]. now apply filter_first in E.
Qed.

(** X18: The row shown is the first row of the frame with the selected name. *)
Theorem selected_row_first (df : list row) (selected : pystr) (r : row) :
  selected_row df selected = Ok r ->
  name r = selected /\
  exists pre post, df = pre ++ r :: post /\
                   Forall (fun x => name x <> selected) pre.
Proof. apply selected_row_inv. Qed.

Lemma selected_row_first_witness :
  selected_row two_rows (py "Ankara")
    = Ok ankara_row /\
  name ankara_row = py "Ankara" /\
  exists pre post,
    two_rows = pre ++ ankara_row :: post /\
    Forall (fun x => name x <> py "Ankara") pre.
Proof.
  assert (H : selected_row two_rows (py "Ankara")
              = Ok ankara_row)
    by (vm_compute; reflexivity).
  split; [exact H|exact (selected_row_first _ _ _ H)].
Defined.

(** X19: On a frame with rows, a name of the frame finds its row and any other
    selection raises [IndexError]; on the frame of no record the very
    column is missing and [KeyError] is raised. *)
Theorem selected_row_found (df : list row) (selected : pystr) :
  (df <> [] -> In selected (name <$> df) ->
   exists r, selected_row df selected = Ok r /\ name r = selected) /\
  (df <> [] -> ~ In selected (name <$> df) ->
   selected_row df selected = Raise IndexError) /\
  (df = [] ->
   selected_row df selected = Raise (KeyError (PStr (py "name")))).
Proof.
  split; [|split].
  - apply selected_row_hit.
  - intros Hne Hout. unfold selected_row, name_column.
    destruct df as [|x df]; [contradiction|]. cbn [rbind].
    now rewrite filter_none.
  - now intros ->.
Qed.

Lemma selected_row_found_witness :
  two_rows <> [] /\ ~ In (py "Kars") (name <$> two_rows) /\
  selected_row two_rows (py "Kars") = Raise IndexError.
Proof.
  assert (Hne : two_rows <> []) by discriminate.
  assert (Hout : ~ In (py "Kars") (name <$> two_rows)).
  { intros Hin. vm_compute in Hin. intuition discriminate. }
  split; [exact Hne|]. split; [exact Hout|].
  exact (proj1 (proj2 (selected_row_found two_rows (py "Kars"))) Hne Hout).
Defined.

(** X20: Without a click, the name the list selector shows finds a row of that
    name, and, names being distinct, the row at the selector's position. *)
Theorem list_selection_shows_row (df : list row) (choice : nat)
    (click_event : pyval) (r0 : row) :
  truthy click_event = false ->
  df !! choice = Some r0 ->
  exists names r,
    name_column df = Ok names /\
    select_province choice names click_event = Ok (PStr (name r0)) /\
    selected_row df (name r0) = Ok r /\
    name r = name r0 /\
    (NoDup (name <$> df) -> r = r0).
Proof.
  intros Hc H0.
  assert (Hne : df <> []) by (intros ->; discriminate).
  assert (Hin : In (name r0) (name <$> df)).
  { apply in_map. apply list_elem_of_In. eapply list_elem_of_lookup_2, H0. }
  destruct (selected_row_hit df (name r0) Hne Hin) as (r & Hr & Hn).
  exists (name <$> df), r. repeat split; try assumption.
  - unfold name_column. now destruct df.
  - unfold select_province. rewrite Hc. unfold selectbox.
    rewrite list_lookup_fmap, H0. reflexivity.
  - intros Hnd. apply selected_row_inv in Hr as (_ & pre & post & -> & Hpre).
    apply list_elem_of_lookup_2 in H0.
    rewrite fmap_app, fmap_cons in Hnd.
    apply NoDup_app in Hnd as (_ & _ & Hnd).
    apply NoDup_cons in Hnd as [Hnd _].
    apply elem_of_app in H0 as [H0|H0].
    + exfalso. rewrite List.Forall_forall in Hpre.
      apply list_elem_of_In in H0. now apply (Hpre _ H0).
    + apply elem_of_cons in H0 as [H0|H0]; [now symmetry|].
      exfalso. apply Hnd. rewrite Hn.
      apply list_elem_of_fmap. now exists r0.
Qed.

Lemma list_selection_shows_row_witness :
  truthy PNone = false /\
  two_rows !! 1%nat = Some ankara_row /\
  exists names r,
    name_column two_rows = Ok names /\
    select_province 1 names PNone = Ok (PStr (py "Ankara")) /\
    selected_row two_rows (py "Ankara") = Ok r /\
    name r = py "Ankara" /\
    (NoDup (name <$> two_rows) ->
     r = ankara_row).
Proof.
  split; [reflexivity|]. split; [reflexivity|].
  exact (list_selection_shows_row two_rows 1 PNone
           ankara_row eq_refl eq_refl).
Defined.

(** X21: A click with an empty payload selects the name of the first row, and
    the panel then shows the first row. *)
Theorem empty_click_shows_first_row (r0 : row) (others : list row)
    (choice : nat) (d : gmap pystr pyval) (rest : list pyval)
    (clicked : pyval) :
  getitem0 (default (PList [PStr []]) (d !! py "customdata")) = Ok clicked ->
  truthy clicked = false ->
  exists names,
    name_column (r0 :: others) = Ok names /\
    select_province choice names (PList (PDict d :: rest))
      = Ok (PStr (name r0)) /\
    selected_row (r0 :: others) (name r0) = Ok r0.
Proof.
  intros Hclicked Ht. exists (name <$> r0 :: others).
  split; [reflexivity|]. split.
  - unfold select_province.
    cbn [truthy getitem0 rbind dict_get]. rewrite Hclicked. cbn [rbind].
    now rewrite Ht.
  - unfold selected_row, name_column. cbn [rbind].
    rewrite filter_cons. case_decide; [reflexivity|contradiction].
Qed.

Lemma empty_click_shows_first_row_witness :
  getitem0 (default (PList [PStr []])
              (({[ py "customdata" := PList [PStr []] ]} : gmap pystr pyval)
                 !! py "customdata")) = Ok (PStr []) /\
  truthy (PStr []) = false /\
  exists names,
    name_column two_rows = Ok names /\
    select_province 1 names empty_click = Ok (PStr (py "Adana")) /\
    selected_row two_rows (py "Adana")
      = Ok adana_row.
Proof.
  assert (H : getitem0 (default (PList [PStr []])
              (({[ py "customdata" := PList [PStr []] ]} : gmap pystr pyval)
                 !! py "customdata")) = Ok (PStr []))
    by (vm_compute; reflexivity).
  split; [exact H|]. split; [reflexivity|].
  exact (empty_click_shows_first_row
           adana_row
           [ankara_row] 1
           {[ py "customdata" := PList [PStr []] ]} [] (PStr []) H eq_refl).
Defined.
End DetailPanel.

(** ** From the loaded data to the table *)

Section Pipeline.






(** The end-to-end example: Adana is joined to the feature ADANA. *)
Example join_datasets_adana :
  join_datasets sample_inference (PList adana_content) adana_collection
    = Ok [adana_row].
Proof. vm_compute. reflexivity. Qed.
End Pipeline.

(** ** More on the loaders *)

Section LoadersMore.

(** X23: The download loop stops at the first mirror that answers: the URLs
    after it are not requested, and its body is what the cache file
    holds. *)
Theorem download_first_success (pre post : list string) (url : string)
    (body : text) (last_error : option exn) (w : world) :
  Forall (fun u => exists e, attempt (network w u) = inl e) pre ->
  attempt (network w url) = inr body ->
  download (pre ++ url :: post) last_error w
    = (Ok None, store_geojson body (log_requests (pre ++ [url]) w)).
Proof.
  revert last_error w.
  induction pre as [|u pre IH]; intros last_error w Hpre Hurl.
  - cbn [app download]. unfold io_bind, try_get. rewrite Hurl. reflexivity.
  - inversion Hpre as [|? ? [e He] Hrest]; subst.
    cbn [app download]. unfold io_bind, try_get. rewrite He.
    apply (IH (Some e) (log_request u w)); assumption.
Qed.

Lemma download_first_success_witness :
  Forall (fun u => exists e,
            attempt (network second_mirror_world u) = inl e) [first_mirror] /\
  attempt (network second_mirror_world second_mirror)
    = inr (JSONText adana_collection) /\
  download ([first_mirror] ++ second_mirror :: ["https://example.org"%string])
           None second_mirror_world
    = (Ok None,
       store_geojson (JSONText adana_collection)
         (log_requests ([first_mirror] ++ [second_mirror])
            second_mirror_world)).
Proof.
  assert (H1 : Forall (fun u => exists e,
                 attempt (network second_mirror_world u) = inl e)
                 [first_mirror]).
  { repeat constructor. exists (RequestException ConnectionError).
    vm_compute. reflexivity. }
  assert (H2 : attempt (network second_mirror_world second_mirror)
               = inr (JSONText adana_collection))
    by (vm_compute; reflexivity).
  split; [exact H1|]. split; [exact H2|].
  exact (download_first_success [first_mirror] ["https://example.org"%string]
           second_mirror (JSONText adana_collection) None
           second_mirror_world H1 H2).
Defined.

(** What the block under [if not GEOJSON_PATH.exists()] comes to when the
    file is missing, by what the two mirrors answer. *)
Lemma fetch_if_missing_cases (w : world) :
  geojson_file w = None ->
  fetch_if_missing w =
  match attempt (network w first_mirror) with
  | inr body => (Ok tt, store_geojson body (log_request first_mirror w))
  | inl _ =>
      match attempt (network w second_mirror) with
      | inr body =>
          (Ok tt, store_geojson body
                    (log_request second_mirror (log_request first_mirror w)))
      | inl e2 =>
          (Raise (RuntimeError "GeoJSON download failed" (Some e2)),
           show_error download_failed_message
             (log_request second_mirror (log_request first_mirror w)))
      end
  end.
Proof.
  intros Hf. unfold fetch_if_missing. rewrite Hf.
  unfold GEOJSON_URLS. cbn [download]. unfold io_bind, try_get.
  change (network w _) with (network w first_mirror) at 1.
  destruct (attempt (network w first_mirror)) as [e1|body1]; [|reflexivity].
  change (network (log_request _ w) _) with (network w second_mirror).
  destruct (attempt (network w second_mirror)) as [e2|body2]; reflexivity.
Qed.

Lemma fetch_if_missing_present (w : world) (t : text) :
  geojson_file w = Some t -> fetch_if_missing w = (Ok tt, w).
Proof. intros Hf. unfold fetch_if_missing. now rewrite Hf. Qed.

(** X24: An existing cache file is never fetched again nor written over,
    whatever it holds and whatever the network: no request is made, and
    with nothing kept in memory the outcome is what decoding the file
    gives. *)
Theorem load_geojson_cache_file (w : world) (t : text) :
  geojson_file w = Some t ->
  requested (snd (load_geojson w)) = requested w /\
  geojson_file (snd (load_geojson w)) = Some t /\
  (cached_geojson w = None -> fst (load_geojson w) = json_load t).
Proof.
  intros Hf. unfold load_geojson.
  destruct (cached_geojson w) as [v|] eqn:Hc.
  - repeat split; [exact Hf|discriminate].
  - unfold load_geojson_uncached, io_bind.
    rewrite (fetch_if_missing_present w t Hf). unfold io_lift.
    rewrite Hf. cbn [read_json].
    destruct (json_load t); repeat split; exact Hf.
Qed.

Lemma load_geojson_cache_file_witness :
  geojson_file cached_world = Some (JSONText adana_collection) /\
  requested (snd (load_geojson cached_world)) = requested cached_world /\
  geojson_file (snd (load_geojson cached_world))
    = Some (JSONText adana_collection) /\
  (cached_geojson cached_world = None ->
   fst (load_geojson cached_world) = json_load (JSONText adana_collection)).
Proof.
  split; [reflexivity|].
  exact (load_geojson_cache_file cached_world _ eq_refl).
Defined.

(** X25: When the first mirror answers with a body that decodes, the second is
    not asked. *)
Theorem load_geojson_first_mirror (w : world) (v : pyval) :
  cached_geojson w = None ->
  geojson_file w = None ->
  attempt (network w first_mirror) = inr (JSONText v) ->
  exists w1,
    load_geojson w = (Ok v, w1) /\
    requested w1 = requested w ++ [first_mirror] /\
    geojson_file w1 = Some (JSONText v).
Proof.
  intros Hc Hf H1.
  exists (keep_geojson v (store_geojson (JSONText v) (log_request first_mirror w))).
  split; [|split; reflexivity].
  unfold load_geojson. rewrite Hc.
  unfold load_geojson_uncached, io_bind.
  rewrite (fetch_if_missing_cases w Hf), H1. reflexivity.
Qed.

Lemma load_geojson_first_mirror_witness :
  cached_geojson online_world = None /\
  geojson_file online_world = None /\
  attempt (network online_world first_mirror)
    = inr (JSONText adana_collection) /\
  exists w1,
    load_geojson online_world = (Ok adana_collection, w1) /\
    requested w1 = requested online_world ++ [first_mirror] /\
    geojson_file w1 = Some (JSONText adana_collection).
Proof.
  split; [reflexivity|]. split; [reflexivity|]. split; [reflexivity|].
  exact (load_geojson_first_mirror online_world adana_collection
           eq_refl eq_refl eq_refl).
Defined.

(** A load that returned a value can be repeated: the same value comes
    back and the world stays as it is. *)
Theorem load_geojson_repeatable (w w1 : world) (v : pyval) :
  load_geojson w = (Ok v, w1) -> load_geojson w1 = (Ok v, w1).
Proof.
  unfold load_geojson.
  destruct (cached_geojson w) as [v0|] eqn:Hc.
  - intros [= <- <-]. now rewrite Hc.
  - destruct (load_geojson_uncached w) as [[v'|e] w']; [|discriminate].
    intros [= <- <-]. reflexivity.
Qed.

Lemma load_geojson_repeatable_witness :
  load_geojson online_world
    = (Ok adana_collection, snd (load_geojson online_world)) /\
  load_geojson (snd (load_geojson online_world))
    = (Ok adana_collection, snd (load_geojson online_world)).
Proof.
  assert (H : load_geojson online_world
              = (Ok adana_collection, snd (load_geojson online_world)))
    by reflexivity.
  split; [exact H|exact (load_geojson_repeatable _ _ _ H)].
Defined.

(** X26: The error message is shown exactly when the download fails, and then
    no cache file is left. *)
Theorem load_geojson_banner (w : world) :
  match fst (load_geojson w) with
  | Raise (RuntimeError _ _) =>
      shown_errors (snd (load_geojson w))
        = shown_errors w ++ [download_failed_message] /\
      geojson_file (snd (load_geojson w)) = None
  | _ => shown_errors (snd (load_geojson w)) = shown_errors w
  end.
Proof.
  unfold load_geojson.
  destruct (cached_geojson w) as [v|]; [reflexivity|].
  unfold load_geojson_uncached, io_bind.
  destruct (geojson_file w) as [t|] eqn:Hf.
  - rewrite (fetch_if_missing_present w t Hf). unfold io_lift. rewrite Hf.
    destruct t; reflexivity.
  - rewrite (fetch_if_missing_cases w Hf).
    destruct (attempt (network w first_mirror)) as [e1|[|v1]];
      [|reflexivity|reflexivity].
    destruct (attempt (network w second_mirror)) as [e2|[|v2]];
      [|reflexivity|reflexivity].
    cbn [fst snd show_error shown_errors geojson_file log_request].
    now split.
Qed.

(** X27: Only the mirrors are ever requested, first things first, and neither
    the content resource nor what is kept of it in memory changes. *)
Theorem load_geojson_requests (w : world) :
  (requested (snd (load_geojson w)) = requested w \/
   requested (snd (load_geojson w)) = requested w ++ [first_mirror] \/
   requested (snd (load_geojson w)) = requested w ++ GEOJSON_URLS) /\
  province_file (snd (load_geojson w)) = province_file w /\
  cached_province_data (snd (load_geojson w)) = cached_province_data w.
Proof.
  unfold load_geojson.
  destruct (cached_geojson w) as [v|]; [now repeat split; left|].
  unfold load_geojson_uncached, io_bind.
  destruct (geojson_file w) as [t|] eqn:Hf.
  - rewrite (fetch_if_missing_present w t Hf). unfold io_lift. rewrite Hf.
    destruct t; now repeat split; left.
  - rewrite (fetch_if_missing_cases w Hf).
    destruct (attempt (network w first_mirror)) as [e1|[|v1]];
      [|now repeat split; right; left..].
    assert (Hreq : forall w0,
              requested (log_request second_mirror (log_request first_mirror w0))
              = requested w0 ++ GEOJSON_URLS).
    { intros w0. cbn [log_request requested]. now rewrite <- app_assoc. }
    destruct (attempt (network w second_mirror)) as [e2|[|v2]];
      (split; [right; right; apply Hreq|now split]).
Qed.

(** X28: A failed download leaves nothing behind: once a mirror is back, the
    next load succeeds. *)
Theorem load_geojson_retry (w : world) (net : string -> reply) (v : pyval) :
  cached_geojson w = None ->
  geojson_file w = None ->
  Forall (fun url => exists e, attempt (network w url) = inl e) GEOJSON_URLS ->
  attempt (net first_mirror) = inr (JSONText v) ->
  fst (load_geojson (with_network net (snd (load_geojson w)))) = Ok v.
Proof.
  intros Hc Hf Hall Hnet.
  unfold GEOJSON_URLS in Hall.
  inversion Hall as [|? ? [e1 He1] Hall']; subst.
  inversion Hall' as [|? ? [e2 He2] _]; subst.
  change (attempt (network w first_mirror) = inl e1) in He1.
  change (attempt (network w second_mirror) = inl e2) in He2.
  assert (Hw : snd (load_geojson w)
               = show_error download_failed_message
                   (log_request second_mirror (log_request first_mirror w))).
  { unfold load_geojson. rewrite Hc.
    unfold load_geojson_uncached, io_bind.
    rewrite (fetch_if_missing_cases w Hf), He1, He2. reflexivity. }
  rewrite Hw. unfold load_geojson.
  cbn [with_network show_error log_request cached_geojson]. rewrite Hc.
  unfold load_geojson_uncached, io_bind.
  rewrite fetch_if_missing_cases by (cbn; exact Hf).
  cbn [network with_network]. rewrite Hnet. reflexivity.
Qed.

Lemma load_geojson_retry_witness :
  cached_geojson offline_world = None /\
  geojson_file offline_world = None /\
  Forall (fun url => exists e, attempt (network offline_world url) = inl e)
         GEOJSON_URLS /\
  attempt (online (JSONText adana_collection) first_mirror)
    = inr (JSONText adana_collection) /\
  fst (load_geojson (with_network (online (JSONText adana_collection))
                       (snd (load_geojson offline_world))))
    = Ok adana_collection.
Proof.
  assert (Hall : Forall (fun url => exists e,
                           attempt (network offline_world url) = inl e)
                        GEOJSON_URLS).
  { repeat constructor; exists (RequestException ConnectionError); reflexivity. }
  split; [reflexivity|]. split; [reflexivity|]. split; [exact Hall|].
  split; [reflexivity|].
  exact (load_geojson_retry offline_world (online (JSONText adana_collection))
           adana_collection eq_refl eq_refl Hall eq_refl).
Defined.

(** X29: A body that does not decode poisons the cache: it is written to the
    file, the load raises, and so does every later load, whatever the
    network then is and without asking it. *)
Theorem load_geojson_poisoned (w : world) (net : string -> reply) :
  cached_geojson w = None ->
  geojson_file w = None ->
  attempt (network w first_mirror) = inr NotJSON ->
  exists w1,
    load_geojson w = (Raise JSONDecodeError, w1) /\
    geojson_file w1 = Some NotJSON /\
    load_geojson (with_network net w1)
      = (Raise JSONDecodeError, with_network net w1).
Proof.
  intros Hc Hf H1.
  exists (store_geojson NotJSON (log_request first_mirror w)).
  assert (Hrun : load_geojson w
                 = (Raise JSONDecodeError,
                    store_geojson NotJSON (log_request first_mirror w))).
  { unfold load_geojson. rewrite Hc.
    unfold load_geojson_uncached, io_bind.
    rewrite (fetch_if_missing_cases w Hf), H1. reflexivity. }
  split; [exact Hrun|]. split; [reflexivity|].
  unfold load_geojson.
  cbn [with_network store_geojson log_request cached_geojson]. rewrite Hc.
  reflexivity.
Qed.

Lemma load_geojson_poisoned_witness :
  cached_geojson broken_online_world = None /\
  geojson_file broken_online_world = None /\
  attempt (network broken_online_world first_mirror) = inr NotJSON /\
  exists w1,
    load_geojson broken_online_world = (Raise JSONDecodeError, w1) /\
    geojson_file w1 = Some NotJSON /\
    load_geojson (with_network (online (JSONText adana_collection)) w1)
      = (Raise JSONDecodeError,
         with_network (online (JSONText adana_collection)) w1).
Proof.
  split; [reflexivity|]. split; [reflexivity|]. split; [reflexivity|].
  exact (load_geojson_poisoned broken_online_world
           (online (JSONText adana_collection)) eq_refl eq_refl eq_refl).
Defined.

(** The content loader touches neither the network nor a file, and a load
    that returned a value can be repeated with the same value. *)
Theorem load_province_data_repeatable (w w1 : world) (v : pyval) :
  load_province_data w = (Ok v, w1) ->
  load_province_data w1 = (Ok v, w1) /\
  requested w1 = requested w /\
  province_file w1 = province_file w /\
  geojson_file w1 = geojson_file w.
Proof.
  unfold load_province_data.
  destruct (cached_province_data w) as [v0|] eqn:Hc.
  - intros [= <- <-]. now rewrite Hc.
  - unfold load_province_data_uncached, io_lift.
    destruct (read_json (province_file w)) as [v'|e]; [|discriminate].
    intros [= <- <-]. repeat split.
Qed.

Lemma load_province_data_repeatable_witness :
  load_province_data nameless_world
    = (Ok (PList [nameless_record]),
       keep_province_data (PList [nameless_record]) nameless_world) /\
  load_province_data
    (keep_province_data (PList [nameless_record]) nameless_world)
    = (Ok (PList [nameless_record]),
       keep_province_data (PList [nameless_record]) nameless_world) /\
  requested (keep_province_data (PList [nameless_record]) nameless_world)
    = requested nameless_world /\
  province_file (keep_province_data (PList [nameless_record]) nameless_world)
    = province_file nameless_world /\
  geojson_file (keep_province_data (PList [nameless_record]) nameless_world)
    = geojson_file nameless_world.
Proof.
  assert (H : load_province_data nameless_world
              = (Ok (PList [nameless_record]),
                 keep_province_data (PList [nameless_record]) nameless_world))
    by reflexivity.
  split; [exact H|exact (load_province_data_repeatable _ _ _ H)].
Defined.
End LoadersMore.
